(** * TCP QVegas congestion control (tcp_qvegas.c): shallow embedding

    The per-connection record [struct qvegas], the hooks registered in
    [tcp_congestion_ops] and the threshold helper are translated function
    by function.  Unsigned C integers are values of [Z] whose wrap-around
    is written out ([u16], [u32], [u64]); the socket is passed explicitly
    and every hook returns the socket it leaves behind.  The two divisions
    of the once-per-RTT computation fault on a zero divisor, so
    [tcp_qvegas_cong_avoid] returns an [option]. *)

From Stdlib Require Import ZArith Bool Lia List Permutation.

Local Open Scope Z_scope.

(** ** Fixed-width integers *)

Definition u16 (x : Z) : Z := x mod 2 ^ 16.
Definition u32 (x : Z) : Z := x mod 2 ^ 32.
Definition u64 (x : Z) : Z := x mod 2 ^ 64.

(** Reinterpretation of the low 32 bits as a signed integer ([__s32] cast). *)
Definition s32 (x : Z) : Z :=
  let y := u32 x in if y <? 2 ^ 31 then y else y - 2 ^ 32.

Definition is_u16 (x : Z) : Prop := 0 <= x < 2 ^ 16.
Definition is_u32 (x : Z) : Prop := 0 <= x < 2 ^ 32.
Definition is_s32 (x : Z) : Prop := - 2 ^ 31 <= x < 2 ^ 31.

(** ** A small error monad for the faulting divisions *)

Definition bind {A B : Type} (c : option A) (k : A -> option B) : option B :=
  match c with
  | Some a => k a
  | None => None
  end.

Notation "x <- c ;; k" := (bind c (fun x => k))
  (at level 61, c at next level, right associativity).

(** [do_div(n, base)]: 64-bit dividend, 32-bit divisor; the quotient
    replaces [n].  A zero [base] is a divide fault. *)
Definition do_div (n base : Z) : option Z :=
  if base =? 0 then None else Some (n / base).

(** The C operator [/] on two [u32] operands. *)
Definition udiv32 (a b : Z) : option Z :=
  if b =? 0 then None else Some (a / b).

(** ** Transport state read and written by the algorithm

    The fields of [struct tcp_sock] (and the [icsk_ca_state] of the
    enclosing [inet_connection_sock]) that this file or the host helpers
    it calls touch. *)
Record tcp_sock : Type := mk_tcp_sock {
  snd_nxt : Z;            (* u32: next sequence we send *)
  snd_cwnd : Z;           (* u32: sending congestion window *)
  snd_ssthresh : Z;       (* u32: slow start size threshold *)
  snd_cwnd_clamp : Z;     (* u32: do not allow snd_cwnd to grow above this *)
  snd_cwnd_cnt : Z;       (* u32: linear increase counter *)
  lost_out : Z;           (* u32: lost packets *)
  max_packets_out : Z;    (* u32: max packets_out in last window *)
  is_cwnd_limited : bool; (* forward progress limited by snd_cwnd? *)
  icsk_ca_state : Z       (* u8: congestion control state *)
}.

Definition set_snd_cwnd (v : Z) (tp : tcp_sock) : tcp_sock :=
  mk_tcp_sock (snd_nxt tp) v (snd_ssthresh tp) (snd_cwnd_clamp tp)
    (snd_cwnd_cnt tp) (lost_out tp) (max_packets_out tp)
    (is_cwnd_limited tp) (icsk_ca_state tp).

Definition set_snd_ssthresh (v : Z) (tp : tcp_sock) : tcp_sock :=
  mk_tcp_sock (snd_nxt tp) (snd_cwnd tp) v (snd_cwnd_clamp tp)
    (snd_cwnd_cnt tp) (lost_out tp) (max_packets_out tp)
    (is_cwnd_limited tp) (icsk_ca_state tp).

Definition set_snd_cwnd_cnt (v : Z) (tp : tcp_sock) : tcp_sock :=
  mk_tcp_sock (snd_nxt tp) (snd_cwnd tp) (snd_ssthresh tp) (snd_cwnd_clamp tp)
    v (lost_out tp) (max_packets_out tp)
    (is_cwnd_limited tp) (icsk_ca_state tp).

(** ** [struct qvegas] *)
Record qvegas : Type := mk_qvegas {
  beg_snd_nxt : Z;       (* u32: right edge during last RTT *)
  beg_snd_una : Z;       (* u32: left edge during last RTT *)
  beg_snd_cwnd : Z;      (* u32: saves the size of the cwnd *)
  lost_cwnd : Z;         (* u32: saves the size of the cwnd *)
  reno_inc : Z;          (* u32 *)
  doing_qvegas_now : Z;  (* u8: if true, do qvegas for this RTT *)
  cntRTT : Z;            (* u16: # of RTTs measured within last RTT *)
  minRTT : Z;            (* u32: min of RTTs measured within last RTT (usec) *)
  baseRTT : Z            (* u32: min of all RTT measurements seen (usec) *)
}.

Definition set_beg_snd_nxt (v : Z) (q : qvegas) : qvegas :=
  mk_qvegas v (beg_snd_una q) (beg_snd_cwnd q) (lost_cwnd q) (reno_inc q)
    (doing_qvegas_now q) (cntRTT q) (minRTT q) (baseRTT q).

Definition set_lost_cwnd (v : Z) (q : qvegas) : qvegas :=
  mk_qvegas (beg_snd_nxt q) (beg_snd_una q) (beg_snd_cwnd q) v (reno_inc q)
    (doing_qvegas_now q) (cntRTT q) (minRTT q) (baseRTT q).

Definition set_reno_inc (v : Z) (q : qvegas) : qvegas :=
  mk_qvegas (beg_snd_nxt q) (beg_snd_una q) (beg_snd_cwnd q) (lost_cwnd q) v
    (doing_qvegas_now q) (cntRTT q) (minRTT q) (baseRTT q).

Definition set_doing_qvegas_now (v : Z) (q : qvegas) : qvegas :=
  mk_qvegas (beg_snd_nxt q) (beg_snd_una q) (beg_snd_cwnd q) (lost_cwnd q)
    (reno_inc q) v (cntRTT q) (minRTT q) (baseRTT q).

Definition set_cntRTT (v : Z) (q : qvegas) : qvegas :=
  mk_qvegas (beg_snd_nxt q) (beg_snd_una q) (beg_snd_cwnd q) (lost_cwnd q)
    (reno_inc q) (doing_qvegas_now q) v (minRTT q) (baseRTT q).

Definition set_minRTT (v : Z) (q : qvegas) : qvegas :=
  mk_qvegas (beg_snd_nxt q) (beg_snd_una q) (beg_snd_cwnd q) (lost_cwnd q)
    (reno_inc q) (doing_qvegas_now q) (cntRTT q) v (baseRTT q).

Definition set_baseRTT (v : Z) (q : qvegas) : qvegas :=
  mk_qvegas (beg_snd_nxt q) (beg_snd_una q) (beg_snd_cwnd q) (lost_cwnd q)
    (reno_inc q) (doing_qvegas_now q) (cntRTT q) (minRTT q) v.

(** ** The socket: transport state plus the private area of the algorithm

    [tcp_sk] and [inet_csk_ca] are the two views of a [struct sock *]. *)
Record sock : Type := mk_sock {
  tcp_sk : tcp_sock;
  inet_csk_ca : qvegas
}.

Definition with_tp (f : tcp_sock -> tcp_sock) (sk : sock) : sock :=
  mk_sock (f (tcp_sk sk)) (inet_csk_ca sk).

Definition with_ca (f : qvegas -> qvegas) (sk : sock) : sock :=
  mk_sock (tcp_sk sk) (f (inet_csk_ca sk)).

(** [struct ack_sample], as delivered to the [pkts_acked] hook. *)
Record ack_sample : Type := mk_ack_sample {
  pkts_acked : Z;  (* u32 *)
  rtt_us : Z;      (* s32 *)
  in_flight : Z    (* s32 *)
}.

(** [enum tcp_ca_event]. *)
Inductive tcp_ca_event : Type :=
| CA_EVENT_TX_START
| CA_EVENT_CWND_RESTART
| CA_EVENT_COMPLETE_CWR
| CA_EVENT_LOSS
| CA_EVENT_ECN_NO_CE
| CA_EVENT_ECN_IS_CE.

Definition is_restart_event (event : tcp_ca_event) : bool :=
  match event with
  | CA_EVENT_CWND_RESTART | CA_EVENT_TX_START => true
  | _ => false
  end.

(** The module parameters [alpha], [beta], [gamma] ([static int],
    writable at run time): a snapshot is handed to each decision. *)
Record params : Type := mk_params {
  alpha : Z;
  beta : Z;
  gamma : Z
}.

Definition default_params : params := mk_params 2 4 1.

(** ** Host transport stack

    What [tcp_qvegas.c] calls but does not define.  The host functions
    work on [tcp_sk(sk)] only; the private area of the congestion control
    is out of their reach. *)
Class Host : Type := mk_Host {
  TCP_INIT_CWND : Z;
  TCP_CA_Open : Z;
  after : Z -> Z -> bool;
  tcp_in_slow_start : tcp_sock -> bool;
  tcp_slow_start : tcp_sock -> Z -> tcp_sock;
  tcp_reno_cong_avoid : tcp_sock -> Z -> Z -> tcp_sock;
  tcp_current_ssthresh : tcp_sock -> Z
}.

(** A host whose window growth never moves the clamp ceiling. *)
Definition host_keeps_clamp (H : Host) : Prop :=
  forall tp acked,
    snd_cwnd_clamp (tcp_slow_start tp acked) = snd_cwnd_clamp tp.

Section Hooks.

Context {H : Host}.

(** [qvegas_enable], lines 83-97. *)
Definition qvegas_enable (sk : sock) : sock :=
  let tp := tcp_sk sk in
  let sk := with_ca (set_doing_qvegas_now 1) sk in
  let sk := with_ca (set_beg_snd_nxt (snd_nxt tp)) sk in
  let sk := with_ca (set_cntRTT 0) sk in
  let sk := with_ca (set_reno_inc 0) sk in
  with_ca (set_minRTT 0x7fffffff) sk.

(** [qvegas_disable], lines 100-105. *)
Definition qvegas_disable (sk : sock) : sock :=
  with_ca (set_doing_qvegas_now 0) sk.

(** [tcp_qvegas_init], lines 107-115. *)
Definition tcp_qvegas_init (sk : sock) : sock :=
  let sk :=
    if baseRTT (inet_csk_ca sk) =? 0
    then with_ca (set_lost_cwnd TCP_INIT_CWND) sk
    else sk in
  let sk := with_ca (set_baseRTT 0x7fffffff) sk in
  qvegas_enable sk.

(** [tcp_qvegas_pkts_acked], lines 126-146. *)
Definition tcp_qvegas_pkts_acked (sk : sock) (sample : ack_sample) : sock :=
  if rtt_us sample <? 0 then sk
  else
    let vrtt := u32 (rtt_us sample + 1) in
    let sk :=
      if vrtt <? baseRTT (inet_csk_ca sk)
      then with_ca (set_baseRTT vrtt) sk
      else sk in
    let sk := with_ca (set_minRTT (Z.min (minRTT (inet_csk_ca sk)) vrtt)) sk in
    with_ca (set_cntRTT (u16 (cntRTT (inet_csk_ca sk) + 1))) sk.

(** [qvegas_undo_cwnd], lines 149-154. *)
Definition qvegas_undo_cwnd (sk : sock) : Z :=
  Z.max (lost_cwnd (inet_csk_ca sk)) 2.

(** [tcp_qvegas_state], lines 156-167. *)
Definition tcp_qvegas_state (sk : sock) (ca_state : Z) : sock :=
  if ca_state =? TCP_CA_Open then
    let sk := qvegas_enable sk in
    with_tp (set_snd_cwnd (Z.max (lost_cwnd (inet_csk_ca sk)) 2)) sk
  else qvegas_disable sk.

(** [tcp_qvegas_cwnd_event], lines 179-184. *)
Definition tcp_qvegas_cwnd_event (sk : sock) (event : tcp_ca_event) : sock :=
  if is_restart_event event then tcp_qvegas_init sk else sk.

(** [tcp_qvegas_ssthresh], lines 187-195: the socket it leaves behind and
    the value it returns.  In [tp->snd_cwnd - qvegas->reno_inc>>1U] the
    subtraction binds tighter than the shift. *)
Definition tcp_qvegas_ssthresh (sk : sock) : sock * Z :=
  let tp := tcp_sk sk in
  let qv := inet_csk_ca sk in
  let sk' :=
    if lost_out tp =? 0 then sk
    else
      with_ca
        (set_lost_cwnd (Z.max (Z.shiftr (u32 (snd_cwnd tp - reno_inc qv)) 1) 2))
        sk in
  (sk', Z.max (Z.min (snd_ssthresh tp) (u32 (snd_cwnd tp - 1))) 2).

(** [tp->snd_ssthresh = tcp_qvegas_ssthresh(tp)]. *)
Definition assign_qvegas_ssthresh (sk : sock) : sock :=
  let r := tcp_qvegas_ssthresh sk in
  with_tp (set_snd_ssthresh (snd r)) (fst r).

(** The fallback step shared by lines 203-205 and 228-230: run Reno and
    add the window delta to [reno_inc]. *)
Definition reno_step (sk : sock) (ack acked : Z) : sock :=
  let cwnd := snd_cwnd (tcp_sk sk) in
  let sk := with_tp (fun tp => tcp_reno_cong_avoid tp ack acked) sk in
  with_ca
    (set_reno_inc
       (u32 (reno_inc (inet_csk_ca sk) + u32 (snd_cwnd (tcp_sk sk) - cwnd))))
    sk.

(** Lines 263-304: the three-way choice on [diff]. *)
Definition qvegas_adjust (p : params) (diff target_cwnd : Z) (sk : sock)
    (acked : Z) : sock :=
  let tp := tcp_sk sk in
  if (u32 (gamma p) <? diff) && tcp_in_slow_start tp then
    let sk :=
      with_tp
        (set_snd_cwnd (Z.min (snd_cwnd tp) (u32 (u32 target_cwnd + 1)))) sk in
    assign_qvegas_ssthresh sk
  else if tcp_in_slow_start tp then
    with_tp (fun tp => tcp_slow_start tp acked) sk
  else if u32 (beta p) <? diff then
    let sk := with_tp (set_snd_cwnd (u32 (snd_cwnd tp - 1))) sk in
    assign_qvegas_ssthresh sk
  else if diff <? u32 (alpha p) then
    with_tp (set_snd_cwnd (u32 (snd_cwnd tp + 1))) sk
  else sk.

(** Lines 306-309. *)
Definition qvegas_clamp (sk : sock) : sock :=
  let tp := tcp_sk sk in
  if snd_cwnd tp <? 4 then with_tp (set_snd_cwnd 4) sk
  else if snd_cwnd_clamp tp <? snd_cwnd tp
  then with_tp (set_snd_cwnd (snd_cwnd_clamp tp)) sk
  else sk.

(** Lines 232-311: the delay-based decision, taken when enough samples
    were seen. *)
Definition qvegas_decision (p : params) (sk : sock) (acked : Z)
    : option sock :=
  let tp := tcp_sk sk in
  let qv := inet_csk_ca sk in
  let rtt := minRTT qv in
  target_cwnd <- do_div (u64 (snd_cwnd tp * baseRTT qv)) rtt ;;
  diff <- udiv32 (u32 (snd_cwnd tp * u32 (rtt - baseRTT qv))) (baseRTT qv) ;;
  let sk := qvegas_adjust p diff target_cwnd sk acked in
  let sk := qvegas_clamp sk in
  Some (with_tp (set_snd_ssthresh (tcp_current_ssthresh (tcp_sk sk))) sk).

(** Lines 315-317: wipe the slate clean for the next RTT. *)
Definition qvegas_wipe (sk : sock) : sock :=
  let sk := with_ca (set_cntRTT 0) sk in
  let sk := with_ca (set_minRTT 0x7fffffff) sk in
  with_ca (set_lost_cwnd (snd_cwnd (tcp_sk sk))) sk.

(** Lines 215-216: take the saved window back and open the next
    measurement window. *)
Definition qvegas_restore (sk : sock) : sock :=
  let sk := with_tp (set_snd_cwnd (lost_cwnd (inet_csk_ca sk))) sk in
  with_ca (set_beg_snd_nxt (snd_nxt (tcp_sk sk))) sk.

(** [tcp_qvegas_cong_avoid], lines 197-323. *)
Definition tcp_qvegas_cong_avoid (p : params) (sk : sock) (ack acked : Z)
    : option sock :=
  if doing_qvegas_now (inet_csk_ca sk) =? 0 then
    Some (reno_step sk ack acked)
  else if after ack (beg_snd_nxt (inet_csk_ca sk)) then
    let sk := qvegas_restore sk in
    sk <- (if cntRTT (inet_csk_ca sk) <=? 2
           then Some (reno_step sk ack acked)
           else qvegas_decision p sk acked) ;;
    Some (qvegas_wipe sk)
  else if tcp_in_slow_start (tcp_sk sk) then
    Some (with_tp (fun tp => tcp_slow_start tp acked) sk)
  else Some sk.

End Hooks.

(** ** States reachable from a full reset

    The hooks may be called in any order once [tcp_qvegas_init] has run;
    between two hooks the host stack may rewrite the transport state, but
    never the private area. *)
Inductive reachable {H : Host} : sock -> Prop :=
| reach_init : forall sk, reachable (tcp_qvegas_init sk)
| reach_pkts_acked : forall sk sample,
    reachable sk -> is_s32 (rtt_us sample) ->
    reachable (tcp_qvegas_pkts_acked sk sample)
| reach_cong_avoid : forall p sk ack acked sk',
    reachable sk -> tcp_qvegas_cong_avoid p sk ack acked = Some sk' ->
    reachable sk'
| reach_state : forall sk ca_state,
    reachable sk -> reachable (tcp_qvegas_state sk ca_state)
| reach_cwnd_event : forall sk event,
    reachable sk -> reachable (tcp_qvegas_cwnd_event sk event)
| reach_host : forall sk tp,
    reachable sk -> reachable (mk_sock tp (inet_csk_ca sk)).

(** A run of the sampler over a list of samples, oldest first. *)
Fixpoint pkts_acked_all (sk : sock) (samples : list ack_sample) : sock :=
  match samples with
  | nil => sk
  | cons s rest => pkts_acked_all (tcp_qvegas_pkts_acked sk s) rest
  end.

Definition valid_sample (s : ack_sample) : Prop :=
  0 <= rtt_us s /\ is_s32 (rtt_us s).

(** ** Reference host

    The host helpers as Linux defines them in include/net/tcp.h and
    net/ipv4/tcp_cong.c for the kernels this module builds against
    ([struct ack_sample], [undo_cwnd], direct [tp->snd_cwnd]).  They are
    not part of tcp_qvegas.c; the general theorems below hold for every
    [Host], and this instance serves to run the hooks on concrete
    sockets. *)
Module Linux.

Definition TCP_INIT_CWND : Z := 10.

Definition TCP_CA_Open : Z := 0.
Definition TCP_CA_Disorder : Z := 1.
Definition TCP_CA_CWR : Z := 2.
Definition TCP_CA_Recovery : Z := 3.
Definition TCP_CA_Loss : Z := 4.

Definition TCPF_CA_CWR : Z := Z.shiftl 1 TCP_CA_CWR.
Definition TCPF_CA_Recovery : Z := Z.shiftl 1 TCP_CA_Recovery.

(** [before(seq1, seq2)] is [(__s32)(seq1 - seq2) < 0];
    [after(seq2, seq1)] is [before(seq1, seq2)]. *)
Definition before (seq1 seq2 : Z) : bool := s32 (seq1 - seq2) <? 0.
Definition after (seq2 seq1 : Z) : bool := before seq1 seq2.

Definition tcp_in_slow_start (tp : tcp_sock) : bool :=
  snd_cwnd tp <? snd_ssthresh tp.

Definition tcp_in_cwnd_reduction (tp : tcp_sock) : bool :=
  negb (Z.land (Z.lor TCPF_CA_CWR TCPF_CA_Recovery)
          (Z.shiftl 1 (icsk_ca_state tp)) =? 0).

Definition tcp_current_ssthresh (tp : tcp_sock) : Z :=
  if tcp_in_cwnd_reduction tp then snd_ssthresh tp
  else Z.max (snd_ssthresh tp)
         (u32 (Z.shiftr (snd_cwnd tp) 1 + Z.shiftr (snd_cwnd tp) 2)).

Definition tcp_is_cwnd_limited (tp : tcp_sock) : bool :=
  if tcp_in_slow_start tp
  then snd_cwnd tp <? u32 (2 * max_packets_out tp)
  else is_cwnd_limited tp.

(** Returns the transport state and the part of [acked] left over. *)
Definition tcp_slow_start (tp : tcp_sock) (acked : Z) : tcp_sock * Z :=
  let cwnd := Z.min (u32 (snd_cwnd tp + acked)) (snd_ssthresh tp) in
  let acked := u32 (acked - u32 (cwnd - snd_cwnd tp)) in
  (set_snd_cwnd (Z.min cwnd (snd_cwnd_clamp tp)) tp, acked).

Definition tcp_cong_avoid_ai (tp : tcp_sock) (w acked : Z) : tcp_sock :=
  let tp :=
    if w <=? snd_cwnd_cnt tp
    then set_snd_cwnd (u32 (snd_cwnd tp + 1)) (set_snd_cwnd_cnt 0 tp)
    else tp in
  let tp := set_snd_cwnd_cnt (u32 (snd_cwnd_cnt tp + acked)) tp in
  let tp :=
    if w <=? snd_cwnd_cnt tp then
      let delta := snd_cwnd_cnt tp / w in
      let tp := set_snd_cwnd_cnt (u32 (snd_cwnd_cnt tp - u32 (delta * w))) tp in
      set_snd_cwnd (u32 (snd_cwnd tp + delta)) tp
    else tp in
  set_snd_cwnd (Z.min (snd_cwnd tp) (snd_cwnd_clamp tp)) tp.

Definition tcp_reno_cong_avoid (tp : tcp_sock) (ack acked : Z) : tcp_sock :=
  if negb (tcp_is_cwnd_limited tp) then tp
  else if tcp_in_slow_start tp then
    let r := tcp_slow_start tp acked in
    if snd r =? 0 then fst r
    else tcp_cong_avoid_ai (fst r) (snd_cwnd (fst r)) (snd r)
  else tcp_cong_avoid_ai tp (snd_cwnd tp) acked.

End Linux.

Definition linux_host : Host :=
  mk_Host Linux.TCP_INIT_CWND Linux.TCP_CA_Open Linux.after
    Linux.tcp_in_slow_start
    (fun tp acked => fst (Linux.tcp_slow_start tp acked))
    Linux.tcp_reno_cong_avoid Linux.tcp_current_ssthresh.

(** ** The state-transition reaction as section 4.2 of the specification
    words it: a full reset, then the window from the saved one.  Kept
    next to [tcp_qvegas_state] for comparison. *)
Definition state_reaction_as_specified {H : Host} (sk : sock) (ca_state : Z)
    : sock :=
  if ca_state =? TCP_CA_Open then
    let sk := tcp_qvegas_init sk in
    with_tp (set_snd_cwnd (Z.max (lost_cwnd (inet_csk_ca sk)) 2)) sk
  else qvegas_disable sk.

(** The saved window as section 4.4 of the specification words it:
    the window minus half of the fallback increment, floored at 2. *)
Definition lost_cwnd_as_specified (sk : sock) : Z :=
  Z.max (snd_cwnd (tcp_sk sk) - reno_inc (inet_csk_ca sk) / 2) 2.

(** The final bounds of lines 306-309 on a window value. *)
Definition clamp_window (w clamp : Z) : Z :=
  if w <? 4 then 4 else if clamp <? w then clamp else w.

(** The two quotients of lines 254-261 on a socket whose divisors are
    not zero: the 64-bit [target_cwnd] and the 32-bit [diff]. *)
Definition qvegas_target (sk : sock) : Z :=
  u64 (snd_cwnd (tcp_sk sk) * baseRTT (inet_csk_ca sk))
  / minRTT (inet_csk_ca sk).

Definition qvegas_diff (sk : sock) : Z :=
  u32 (snd_cwnd (tcp_sk sk)
       * u32 (minRTT (inet_csk_ca sk) - baseRTT (inet_csk_ca sk)))
  / baseRTT (inet_csk_ca sk).

(** Private areas that agree on every field but [lost_cwnd]. *)
Definition same_but_lost_cwnd (q q' : qvegas) : Prop :=
  q' = set_lost_cwnd (lost_cwnd q') q.

(** Every field within the range of its C type. *)
Definition wf_tcp_sock (tp : tcp_sock) : Prop :=
  is_u32 (snd_nxt tp) /\ is_u32 (snd_cwnd tp) /\ is_u32 (snd_ssthresh tp) /\
  is_u32 (snd_cwnd_clamp tp) /\ is_u32 (snd_cwnd_cnt tp) /\
  is_u32 (lost_out tp) /\ is_u32 (max_packets_out tp) /\
  0 <= icsk_ca_state tp < 2 ^ 8.

Definition wf_qvegas (q : qvegas) : Prop :=
  is_u32 (beg_snd_nxt q) /\ is_u32 (beg_snd_una q) /\
  is_u32 (beg_snd_cwnd q) /\ is_u32 (lost_cwnd q) /\ is_u32 (reno_inc q) /\
  0 <= doing_qvegas_now q < 2 ^ 8 /\ is_u16 (cntRTT q) /\
  is_u32 (minRTT q) /\ is_u32 (baseRTT q).

Definition wf_sock (sk : sock) : Prop :=
  wf_tcp_sock (tcp_sk sk) /\ wf_qvegas (inet_csk_ca sk).

(** ** Concrete sockets *)

(** A transport state in the open state with nothing lost. *)
Definition tp_open (nxt cwnd ssthresh clamp : Z) : tcp_sock :=
  mk_tcp_sock nxt cwnd ssthresh clamp 0 0 0 false Linux.TCP_CA_Open.

(** A private area in the middle of a measurement window that began at
    sequence number 500. *)
Definition qv_active (saved cnt rtt base : Z) : qvegas :=
  mk_qvegas 500 0 0 saved 0 1 cnt rtt base.

(** Slow start, three samples, the window minimum 20 times the base RTT. *)
Definition sk_exit_steep : sock :=
  mk_sock (tp_open 1000 10 64 1000) (qv_active 10 3 20000 1000).

(** Slow start, the window minimum one and a half times the base RTT. *)
Definition sk_exit_mild : sock :=
  mk_sock (tp_open 1000 10 64 1000) (qv_active 10 3 15000 10000).

(** Avoidance at the floor of 4 with a long queue. *)
Definition sk_avoid_floor : sock :=
  mk_sock (tp_open 1000 4 2 1000) (qv_active 4 5 30000 10000).

(** Avoidance, window 20, the window minimum 214.758365 s: the 32-bit
    product [20 * 214748365] wraps to 4. *)
Definition sk_avoid_wrap : sock :=
  mk_sock (tp_open 1000 20 10 1000) (qv_active 20 5 214758365 10000).

(** Avoidance, window 20, base RTT 10000 us, window minimum 15000 us. *)
Definition sk_overloaded : sock :=
  mk_sock (tp_open 1000 20 10 1000) (qv_active 20 5 15000 10000).

(** One sample only, saved window 2, sender not limited by the window. *)
Definition sk_few_samples : sock :=
  mk_sock (tp_open 1000 2 2 100) (qv_active 2 1 12000 10000).

(** Avoidance with enough samples, window and clamp ceiling both 2. *)
Definition sk_low_clamp : sock :=
  mk_sock (tp_open 1000 2 2 2) (qv_active 2 5 10000 10000).

(** The window a call leaves behind, if it returns. *)
Definition window_after (r : option sock) : option Z :=
  option_map (fun sk => snd_cwnd (tcp_sk sk)) r.

(** Avoidance, window 20 of which 4 came from the fallback, threshold 19,
    one packet marked lost, base RTT 10000 us, window minimum 15000 us. *)
Definition sk_lossy : sock :=
  mk_sock (mk_tcp_sock 1000 20 19 1000 0 1 0 false Linux.TCP_CA_Open)
    (mk_qvegas 500 0 0 20 4 1 5 15000 10000).

(** The saved window a call leaves behind, if it returns. *)
Definition saved_after (r : option sock) : option Z :=
  option_map (fun sk => lost_cwnd (inet_csk_ca sk)) r.

(** The threshold a call leaves behind, if it returns. *)
Definition ssthresh_after (r : option sock) : option Z :=
  option_map (fun sk => snd_ssthresh (tcp_sk sk)) r.

(** A cycle is due: the algorithm is active and [ack] is past
    [beg_snd_nxt]. *)
Definition cycle_due {H : Host} (sk : sock) (ack : Z) : Prop :=
  doing_qvegas_now (inet_csk_ca sk) <> 0 /\
  after ack (beg_snd_nxt (inet_csk_ca sk)) = true.

(** ** Runs of the hooks, as the host drives them *)

(** The decision engine over a list of acknowledgments [(ack, acked)],
    oldest first; a divide fault ends the run. *)
Fixpoint cong_avoid_all {H : Host} (p : params) (sk : sock)
    (acks : list (Z * Z)) : option sock :=
  match acks with
  | nil => Some sk
  | cons a rest =>
      sk' <- tcp_qvegas_cong_avoid p sk (fst a) (snd a) ;;
      cong_avoid_all p sk' rest
  end.

(** The fallback alone over the same acknowledgments. *)
Fixpoint reno_all {H : Host} (tp : tcp_sock) (acks : list (Z * Z))
    : tcp_sock :=
  match acks with
  | nil => tp
  | cons a rest => reno_all (tcp_reno_cong_avoid tp (fst a) (snd a)) rest
  end.

(** A sample gets past the test of line 131. *)
Definition sample_taken (s : ack_sample) : bool := negb (rtt_us s <? 0).

(** The [vrtt] of line 135. *)
Definition vrtt_of (s : ack_sample) : Z := u32 (rtt_us s + 1).

(** The [vrtt] values of the samples of a run that are taken. *)
Definition taken_vrtts (samples : list ack_sample) : list Z :=
  map vrtt_of (filter sample_taken samples).

(** A host whose helpers keep every transport field within its C type. *)
Definition host_keeps_wf (H : Host) : Prop :=
  is_u32 TCP_INIT_CWND /\
  (forall tp ack acked,
     wf_tcp_sock tp -> wf_tcp_sock (tcp_reno_cong_avoid tp ack acked)) /\
  (forall tp acked, wf_tcp_sock tp -> wf_tcp_sock (tcp_slow_start tp acked)) /\
  (forall tp, wf_tcp_sock tp -> is_u32 (tcp_current_ssthresh tp)).

(** * Properties *)

(** ** Fixed-width arithmetic *)

Lemma u32_small : forall x, is_u32 x -> u32 x = x.
Proof. intros x Hx. unfold u32. apply Z.mod_small. exact Hx. Qed.

Lemma u16_small : forall x, is_u16 x -> u16 x = x.
Proof. intros x Hx. unfold u16. apply Z.mod_small. exact Hx. Qed.

Lemma u64_small : forall x, 0 <= x < 2 ^ 64 -> u64 x = x.
Proof. intros x Hx. unfold u64. apply Z.mod_small. exact Hx. Qed.

Lemma u32_range : forall x, is_u32 (u32 x).
Proof. intro x. unfold is_u32, u32. apply Z.mod_pos_bound. lia. Qed.

Lemma u32_pred : forall x, 1 <= x < 2 ^ 32 -> u32 (x - 1) = x - 1.
Proof. intros x Hx. apply u32_small. unfold is_u32. lia. Qed.

Lemma u64_mul_u32 : forall a b, is_u32 a -> is_u32 b -> u64 (a * b) = a * b.
Proof.
  intros a b Ha Hb. apply u64_small. unfold is_u32 in *.
  assert (a * b <= (2 ^ 32 - 1) * (2 ^ 32 - 1)) by (apply Z.mul_le_mono_nonneg; lia).
  split; [apply Z.mul_nonneg_nonneg; lia | lia].
Qed.

(** ** Threshold helper *)

(** The value returned by the helper never depends on the private area,
    and the helper never writes the transport state. *)
Lemma tcp_qvegas_ssthresh_tp : forall sk,
  tcp_sk (fst (tcp_qvegas_ssthresh sk)) = tcp_sk sk.
Proof.
  intro sk. unfold tcp_qvegas_ssthresh. simpl.
  destruct (lost_out (tcp_sk sk) =? 0); reflexivity.
Qed.

(** With packets marked lost the helper stores half of the whole
    difference [snd_cwnd - reno_inc] (32-bit), floored at 2. *)
Lemma tcp_qvegas_ssthresh_lost : forall sk,
  lost_out (tcp_sk sk) <> 0 ->
  lost_cwnd (inet_csk_ca (fst (tcp_qvegas_ssthresh sk))) =
  Z.max (u32 (snd_cwnd (tcp_sk sk) - reno_inc (inet_csk_ca sk)) / 2) 2.
Proof.
  intros sk Hlost. unfold tcp_qvegas_ssthresh. simpl.
  apply Z.eqb_neq in Hlost. rewrite Hlost. simpl.
  rewrite Z.shiftr_div_pow2 by lia. reflexivity.
Qed.

(** Without lost packets the helper leaves the socket alone. *)
Lemma tcp_qvegas_ssthresh_no_loss : forall sk,
  lost_out (tcp_sk sk) = 0 -> fst (tcp_qvegas_ssthresh sk) = sk.
Proof.
  intros sk Hlost. unfold tcp_qvegas_ssthresh. simpl.
  rewrite Hlost. reflexivity.
Qed.

(** C1: on the socket with window 20, fallback increment 4 and one packet
    marked lost, the helper saves 8, half of the difference 20 - 4, where
    the window minus half of the increment, floored at 2, is 18. *)
Theorem tcp_qvegas_ssthresh_saves_8_not_18 :
  let sk := mk_sock (mk_tcp_sock 1000 20 30 100 0 1 0 false 0)
                    (mk_qvegas 500 0 0 20 4 1 5 15000 10000) in
  lost_out (tcp_sk sk) <> 0 /\
  lost_cwnd (inet_csk_ca (fst (tcp_qvegas_ssthresh sk))) = 8 /\
  lost_cwnd_as_specified sk = 18.
Proof.
  cbv zeta. split; [| split].
  - simpl. discriminate.
  - vm_compute. reflexivity.
  - vm_compute. reflexivity.
Qed.




(** ** RTT sampler *)

Lemma vrtt_exact : forall r, 0 <= r -> is_s32 r -> u32 (r + 1) = r + 1.
Proof.
  intros r H0 Hr. apply u32_small. unfold is_s32, is_u32 in *. lia.
Qed.

Lemma pkts_acked_skip : forall sk sample,
  rtt_us sample < 0 -> tcp_qvegas_pkts_acked sk sample = sk.
Proof.
  intros sk sample Hneg. unfold tcp_qvegas_pkts_acked.
  apply Z.ltb_lt in Hneg. rewrite Hneg. reflexivity.
Qed.

Lemma pkts_acked_valid : forall sk sample,
  0 <= rtt_us sample -> is_s32 (rtt_us sample) ->
  let vrtt := rtt_us sample + 1 in
  let q := inet_csk_ca sk in
  tcp_qvegas_pkts_acked sk sample =
    mk_sock (tcp_sk sk)
      (mk_qvegas (beg_snd_nxt q) (beg_snd_una q) (beg_snd_cwnd q)
         (lost_cwnd q) (reno_inc q) (doing_qvegas_now q)
         (u16 (cntRTT q + 1)) (Z.min (minRTT q) vrtt)
         (Z.min (baseRTT q) vrtt)).
Proof.
  intros sk sample Hpos Hs vrtt q. unfold tcp_qvegas_pkts_acked.
  destruct (rtt_us sample <? 0) eqn:Eneg;
    [apply Z.ltb_lt in Eneg; lia |].
  rewrite (vrtt_exact _ Hpos Hs). fold vrtt. fold q.
  destruct (vrtt <? baseRTT q) eqn:Ebase.
  - apply Z.ltb_lt in Ebase.
    unfold with_ca, set_baseRTT, set_minRTT, set_cntRTT. simpl.
    rewrite (Z.min_r (baseRTT q) vrtt) by lia. reflexivity.
  - apply Z.ltb_ge in Ebase.
    unfold with_ca, set_baseRTT, set_minRTT, set_cntRTT. simpl.
    rewrite (Z.min_l (baseRTT q) vrtt) by lia. reflexivity.
Qed.

(** C7, amended: a negative sample leaves the socket as it was; any other
    sample is taken as [vrtt = rtt_us + 1 >= 1], lowers [baseRTT] and
    [minRTT] to their minimum with [vrtt], adds one to [cntRTT] modulo
    2^16 (so the count grows by exactly 1 below 65535 and wraps to 0 at
    65535), and touches neither another field of the private area nor the
    transport state. *)
Theorem tcp_qvegas_pkts_acked_spec : forall sk sample,
  is_s32 (rtt_us sample) ->
  (rtt_us sample < 0 -> tcp_qvegas_pkts_acked sk sample = sk) /\
  (0 <= rtt_us sample ->
   let vrtt := rtt_us sample + 1 in
   let q := inet_csk_ca sk in
   1 <= vrtt /\
   tcp_qvegas_pkts_acked sk sample =
     mk_sock (tcp_sk sk)
       (mk_qvegas (beg_snd_nxt q) (beg_snd_una q) (beg_snd_cwnd q)
          (lost_cwnd q) (reno_inc q) (doing_qvegas_now q)
          (u16 (cntRTT q + 1)) (Z.min (minRTT q) vrtt)
          (Z.min (baseRTT q) vrtt)) /\
   (is_u16 (cntRTT q) -> cntRTT q < 65535 ->
    cntRTT (inet_csk_ca (tcp_qvegas_pkts_acked sk sample)) = cntRTT q + 1)).
Proof.
  intros sk sample Hs. split.
  - apply pkts_acked_skip.
  - intros Hpos vrtt q.
    pose proof (pkts_acked_valid sk sample Hpos Hs) as Hcode.
    cbv zeta in Hcode. fold vrtt in Hcode. fold q in Hcode.
    split; [subst vrtt; lia |]. split; [exact Hcode |].
    intros Hcnt Hmax. rewrite Hcode. simpl.
    apply u16_small. unfold is_u16 in *. lia.
Qed.

Lemma tcp_qvegas_pkts_acked_spec_witness :
  let sk := mk_sock (tp_open 1000 20 30 100) (qv_active 20 5 15000 10000) in
  let sample := mk_ack_sample 1 0 20 in
  is_s32 (rtt_us sample) /\
  inet_csk_ca (tcp_qvegas_pkts_acked sk sample) = qv_active 20 6 1 1 /\
  tcp_sk (tcp_qvegas_pkts_acked sk sample) = tcp_sk sk.
Proof.
  cbv zeta.
  assert (Hs : is_s32 (rtt_us (mk_ack_sample 1 0 20)))
    by (unfold is_s32; simpl; lia).
  split; [exact Hs |].
  destruct (tcp_qvegas_pkts_acked_spec
              (mk_sock (tp_open 1000 20 30 100) (qv_active 20 5 15000 10000))
              (mk_ack_sample 1 0 20) Hs) as [_ Hvalid].
  destruct Hvalid as [_ [Hcode _]]; [simpl; lia |].
  rewrite Hcode. split; vm_compute; reflexivity.
Defined.

(** C7 as stated fails at the top of the 16-bit counter: with [cntRTT]
    at 65535 a valid sample (here of duration 0) leaves [cntRTT] at 0,
    not at 65536, while both minima are lowered and nothing else
    changes. *)
Lemma pkts_acked_count_wraps :
  let sk := mk_sock (tp_open 1000 20 30 100) (qv_active 20 65535 15000 10000) in
  let sample := mk_ack_sample 1 0 20 in
  is_s32 (rtt_us sample) /\ 0 <= rtt_us sample /\
  is_u16 (cntRTT (inet_csk_ca sk)) /\
  cntRTT (inet_csk_ca sk) = 65535 /\
  cntRTT (inet_csk_ca (tcp_qvegas_pkts_acked sk sample)) = 0 /\
  cntRTT (inet_csk_ca (tcp_qvegas_pkts_acked sk sample))
    <> cntRTT (inet_csk_ca sk) + 1 /\
  tcp_qvegas_pkts_acked sk sample =
    mk_sock (tp_open 1000 20 30 100) (qv_active 20 0 1 1).
Proof.
  cbv zeta.
  split; [unfold is_s32; simpl; lia |].
  split; [simpl; lia |].
  split; [unfold is_u16; simpl; lia |].
  split; [reflexivity |].
  split; [vm_compute; reflexivity |].
  split; [vm_compute; discriminate | vm_compute; reflexivity].
Qed.

(** The sampler never raises [baseRTT], and a valid sample leaves both
    minima at 1 or more when they were so before. *)
Lemma pkts_acked_baseRTT_le : forall sk sample,
  baseRTT (inet_csk_ca (tcp_qvegas_pkts_acked sk sample))
  <= baseRTT (inet_csk_ca sk).
Proof.
  intros sk sample. unfold tcp_qvegas_pkts_acked.
  destruct (rtt_us sample <? 0); [lia |].
  destruct (u32 (rtt_us sample + 1) <? baseRTT (inet_csk_ca sk)) eqn:E;
    simpl; [apply Z.ltb_lt in E; lia | lia].
Qed.

Lemma pkts_acked_minima_pos : forall sk sample,
  is_s32 (rtt_us sample) ->
  1 <= baseRTT (inet_csk_ca sk) -> 1 <= minRTT (inet_csk_ca sk) ->
  1 <= baseRTT (inet_csk_ca (tcp_qvegas_pkts_acked sk sample)) /\
  1 <= minRTT (inet_csk_ca (tcp_qvegas_pkts_acked sk sample)).
Proof.
  intros sk sample Hs Hb Hm.
  destruct (Z.lt_ge_cases (rtt_us sample) 0) as [Hneg | Hpos].
  - rewrite (pkts_acked_skip sk sample Hneg). split; assumption.
  - rewrite (pkts_acked_valid sk sample Hpos Hs). simpl. split; lia.
Qed.

Lemma pkts_acked_all_baseRTT_le : forall samples sk,
  baseRTT (inet_csk_ca (pkts_acked_all sk samples))
  <= baseRTT (inet_csk_ca sk).
Proof.
  induction samples as [| s rest IH]; intro sk; simpl.
  - lia.
  - specialize (IH (tcp_qvegas_pkts_acked sk s)).
    pose proof (pkts_acked_baseRTT_le sk s). lia.
Qed.

(** ** Mode controller *)

Section ModeController.

Context {H : Host}.

Lemma qvegas_enable_eq : forall sk,
  qvegas_enable sk =
  mk_sock (tcp_sk sk)
    (mk_qvegas (snd_nxt (tcp_sk sk)) (beg_snd_una (inet_csk_ca sk))
       (beg_snd_cwnd (inet_csk_ca sk)) (lost_cwnd (inet_csk_ca sk)) 0 1 0
       0x7fffffff (baseRTT (inet_csk_ca sk))).
Proof. intro sk. reflexivity. Qed.

Lemma tcp_qvegas_init_rtts : forall sk,
  baseRTT (inet_csk_ca (tcp_qvegas_init sk)) = 0x7fffffff /\
  minRTT (inet_csk_ca (tcp_qvegas_init sk)) = 0x7fffffff.
Proof.
  intro sk. unfold tcp_qvegas_init.
  destruct (baseRTT (inet_csk_ca sk) =? 0); split; reflexivity.
Qed.

(** C5, amended: on [TCP_CA_Open] the reaction is enable-for-fresh-window
    alone ([doing_qvegas_now = 1], [beg_snd_nxt = snd_nxt], [cntRTT] and
    [reno_inc] zeroed, [minRTT] unset) with [baseRTT] and [lost_cwnd] kept
    as they are, and the window becomes [max(lost_cwnd, 2)]; on every
    other state only [doing_qvegas_now] is cleared. *)
Theorem tcp_qvegas_state_spec : forall sk ca_state,
  let tp := tcp_sk sk in
  let q := inet_csk_ca sk in
  (ca_state = TCP_CA_Open ->
   tcp_qvegas_state sk ca_state =
     with_tp (set_snd_cwnd (Z.max (lost_cwnd q) 2)) (qvegas_enable sk) /\
   tcp_qvegas_state sk ca_state =
     mk_sock (set_snd_cwnd (Z.max (lost_cwnd q) 2) tp)
       (mk_qvegas (snd_nxt tp) (beg_snd_una q) (beg_snd_cwnd q) (lost_cwnd q)
          0 1 0 0x7fffffff (baseRTT q))) /\
  (ca_state <> TCP_CA_Open ->
   tcp_qvegas_state sk ca_state = qvegas_disable sk /\
   tcp_qvegas_state sk ca_state =
     mk_sock tp
       (mk_qvegas (beg_snd_nxt q) (beg_snd_una q) (beg_snd_cwnd q)
          (lost_cwnd q) (reno_inc q) 0 (cntRTT q) (minRTT q) (baseRTT q))).
Proof.
  intros sk ca_state tp q. unfold tcp_qvegas_state. split.
  - intro Hopen. apply Z.eqb_eq in Hopen. rewrite Hopen.
    split; reflexivity.
  - intro Hother. apply Z.eqb_neq in Hother. rewrite Hother.
    split; reflexivity.
Qed.

End ModeController.

(** C5 as stated fails: with [baseRTT] at 5000 the reaction to
    [TCP_CA_Open] keeps 5000 where a full reset stores 0x7fffffff, and on
    a zeroed private area it leaves [lost_cwnd] at 0 and the window at 2
    where a full reset followed by the window assignment gives 10. *)
Lemma tcp_qvegas_state_is_not_full_reset :
  let sk_a := mk_sock (tp_open 1000 7 30 100) (qv_active 7 5 6000 5000) in
  let sk_b := mk_sock (tp_open 1000 7 30 100) (mk_qvegas 0 0 0 0 0 0 0 0 0) in
  let code := tcp_qvegas_state (H := linux_host) in
  let spec := state_reaction_as_specified (H := linux_host) in
  (baseRTT (inet_csk_ca (code sk_a Linux.TCP_CA_Open)) = 5000 /\
   baseRTT (inet_csk_ca (spec sk_a Linux.TCP_CA_Open)) = 0x7fffffff) /\
  (snd_cwnd (tcp_sk (code sk_b Linux.TCP_CA_Open)) = 2 /\
   snd_cwnd (tcp_sk (spec sk_b Linux.TCP_CA_Open)) = 10) /\
  code sk_a Linux.TCP_CA_Open <> spec sk_a Linux.TCP_CA_Open.
Proof.
  cbv zeta. repeat split; try (vm_compute; reflexivity).
  vm_compute. discriminate.
Qed.

Lemma tcp_qvegas_state_spec_witness :
  let sk := mk_sock (tp_open 1000 7 30 100) (qv_active 1 5 6000 5000) in
  tcp_qvegas_state (H := linux_host) sk Linux.TCP_CA_Open =
    mk_sock (tp_open 1000 2 30 100)
      (mk_qvegas 1000 0 0 1 0 1 0 0x7fffffff 5000) /\
  (Linux.TCP_CA_Recovery <> Linux.TCP_CA_Open /\
   tcp_qvegas_state (H := linux_host) sk Linux.TCP_CA_Recovery =
     mk_sock (tp_open 1000 7 30 100)
       (mk_qvegas 500 0 0 1 0 0 5 6000 5000)).
Proof.
  cbv zeta. split.
  - destruct (tcp_qvegas_state_spec (H := linux_host)
                (mk_sock (tp_open 1000 7 30 100) (qv_active 1 5 6000 5000))
                Linux.TCP_CA_Open) as [Hopen _].
    destruct (Hopen eq_refl) as [_ Hrec]. rewrite Hrec. reflexivity.
  - assert (Hne : Linux.TCP_CA_Recovery <> Linux.TCP_CA_Open)
      by (unfold Linux.TCP_CA_Recovery, Linux.TCP_CA_Open; discriminate).
    split; [exact Hne |].
    destruct (tcp_qvegas_state_spec (H := linux_host)
                (mk_sock (tp_open 1000 7 30 100) (qv_active 1 5 6000 5000))
                Linux.TCP_CA_Recovery) as [_ Hother].
    destruct (Hother Hne) as [_ Hrec]. rewrite Hrec. reflexivity.
Defined.

(** ** Round-trip decision engine: structure of one call *)

Section DecisionEngine.

Context {H : Host}.

Lemma same_but_lost_cwnd_refl : forall q, same_but_lost_cwnd q q.
Proof. intro q. destruct q. reflexivity. Qed.

Lemma same_but_lost_cwnd_set : forall q v, same_but_lost_cwnd q (set_lost_cwnd v q).
Proof. intros q v. destruct q. reflexivity. Qed.

Lemma same_but_lost_cwnd_rtts : forall q q',
  same_but_lost_cwnd q q' ->
  baseRTT q' = baseRTT q /\ minRTT q' = minRTT q /\ cntRTT q' = cntRTT q /\
  reno_inc q' = reno_inc q /\ beg_snd_nxt q' = beg_snd_nxt q /\
  doing_qvegas_now q' = doing_qvegas_now q.
Proof.
  intros q q' Hq. unfold same_but_lost_cwnd in Hq. rewrite Hq. simpl.
  repeat split.
Qed.

Lemma tcp_qvegas_ssthresh_ca : forall sk,
  same_but_lost_cwnd (inet_csk_ca sk) (inet_csk_ca (fst (tcp_qvegas_ssthresh sk))).
Proof.
  intro sk. unfold tcp_qvegas_ssthresh. simpl.
  destruct (lost_out (tcp_sk sk) =? 0); simpl.
  - apply same_but_lost_cwnd_refl.
  - apply same_but_lost_cwnd_set.
Qed.

Lemma assign_qvegas_ssthresh_tp : forall sk,
  tcp_sk (assign_qvegas_ssthresh sk) =
  set_snd_ssthresh (snd (tcp_qvegas_ssthresh sk)) (tcp_sk sk).
Proof.
  intro sk. unfold assign_qvegas_ssthresh, with_tp. cbn [tcp_sk].
  rewrite tcp_qvegas_ssthresh_tp. reflexivity.
Qed.

Lemma assign_qvegas_ssthresh_ca : forall sk,
  inet_csk_ca (assign_qvegas_ssthresh sk) =
  inet_csk_ca (fst (tcp_qvegas_ssthresh sk)).
Proof. intro sk. reflexivity. Qed.

Lemma qvegas_adjust_ca : forall p diff target sk acked,
  same_but_lost_cwnd (inet_csk_ca sk)
    (inet_csk_ca (qvegas_adjust p diff target sk acked)).
Proof.
  intros p diff target sk acked. unfold qvegas_adjust.
  destruct ((u32 (gamma p) <? diff) && tcp_in_slow_start (tcp_sk sk)).
  - rewrite assign_qvegas_ssthresh_ca.
    apply (tcp_qvegas_ssthresh_ca
             (with_tp (set_snd_cwnd
                (Z.min (snd_cwnd (tcp_sk sk)) (u32 (u32 target + 1)))) sk)).
  - destruct (tcp_in_slow_start (tcp_sk sk)).
    + apply same_but_lost_cwnd_refl.
    + destruct (u32 (beta p) <? diff).
      * rewrite assign_qvegas_ssthresh_ca.
        apply (tcp_qvegas_ssthresh_ca
                 (with_tp (set_snd_cwnd (u32 (snd_cwnd (tcp_sk sk) - 1))) sk)).
      * destruct (diff <? u32 (alpha p)); apply same_but_lost_cwnd_refl.
Qed.

Lemma qvegas_clamp_ca : forall sk,
  inet_csk_ca (qvegas_clamp sk) = inet_csk_ca sk.
Proof.
  intro sk. unfold qvegas_clamp.
  destruct (snd_cwnd (tcp_sk sk) <? 4); [reflexivity |].
  destruct (snd_cwnd_clamp (tcp_sk sk) <? snd_cwnd (tcp_sk sk)); reflexivity.
Qed.

Lemma qvegas_clamp_tp : forall sk,
  tcp_sk (qvegas_clamp sk) =
  set_snd_cwnd
    (clamp_window (snd_cwnd (tcp_sk sk)) (snd_cwnd_clamp (tcp_sk sk)))
    (tcp_sk sk).
Proof.
  intro sk. unfold qvegas_clamp, clamp_window.
  destruct (snd_cwnd (tcp_sk sk) <? 4); [reflexivity |].
  destruct (snd_cwnd_clamp (tcp_sk sk) <? snd_cwnd (tcp_sk sk));
    [reflexivity |].
  destruct sk as [tp q]. destruct tp. reflexivity.
Qed.

Lemma clamp_window_bounds : forall w clamp,
  4 <= clamp -> 4 <= clamp_window w clamp <= clamp.
Proof.
  intros w clamp Hc. unfold clamp_window.
  destruct (w <? 4) eqn:E4; [lia |]. apply Z.ltb_ge in E4.
  destruct (clamp <? w) eqn:Ec; [lia |]. apply Z.ltb_ge in Ec. lia.
Qed.

(** With both divisors away from zero the decision block runs to its
    end: branch, bounds, then the host threshold. *)
Lemma qvegas_decision_ok : forall p sk acked,
  minRTT (inet_csk_ca sk) <> 0 -> baseRTT (inet_csk_ca sk) <> 0 ->
  qvegas_decision p sk acked =
  let ska := qvegas_clamp
               (qvegas_adjust p (qvegas_diff sk) (qvegas_target sk) sk acked) in
  Some (with_tp (set_snd_ssthresh (tcp_current_ssthresh (tcp_sk ska))) ska).
Proof.
  intros p sk acked Hm Hb. unfold qvegas_decision, do_div, udiv32.
  apply Z.eqb_neq in Hm. apply Z.eqb_neq in Hb.
  rewrite Hm. simpl. rewrite Hb. simpl. reflexivity.
Qed.

(** A zero divisor is a fault. *)
Lemma qvegas_decision_fault : forall p sk acked,
  minRTT (inet_csk_ca sk) = 0 \/ baseRTT (inet_csk_ca sk) = 0 ->
  qvegas_decision p sk acked = None.
Proof.
  intros p sk acked Hz. unfold qvegas_decision, do_div, udiv32.
  destruct (minRTT (inet_csk_ca sk) =? 0) eqn:Em; [reflexivity |].
  simpl. destruct Hz as [Hz | Hz].
  - apply Z.eqb_neq in Em. contradiction.
  - rewrite Hz. reflexivity.
Qed.

Lemma qvegas_restore_ca : forall sk,
  inet_csk_ca (qvegas_restore sk) =
  set_beg_snd_nxt (snd_nxt (tcp_sk sk)) (inet_csk_ca sk).
Proof. intro sk. reflexivity. Qed.

Lemma qvegas_restore_tp : forall sk,
  tcp_sk (qvegas_restore sk) =
  set_snd_cwnd (lost_cwnd (inet_csk_ca sk)) (tcp_sk sk).
Proof. intro sk. reflexivity. Qed.

Lemma cong_avoid_disabled : forall p sk ack acked,
  doing_qvegas_now (inet_csk_ca sk) = 0 ->
  tcp_qvegas_cong_avoid p sk ack acked = Some (reno_step sk ack acked).
Proof.
  intros p sk ack acked Hoff. unfold tcp_qvegas_cong_avoid.
  rewrite Hoff. reflexivity.
Qed.

Lemma cong_avoid_few_samples : forall p sk ack acked,
  doing_qvegas_now (inet_csk_ca sk) <> 0 ->
  after ack (beg_snd_nxt (inet_csk_ca sk)) = true ->
  cntRTT (inet_csk_ca sk) <= 2 ->
  tcp_qvegas_cong_avoid p sk ack acked =
  Some (qvegas_wipe (reno_step (qvegas_restore sk) ack acked)).
Proof.
  intros p sk ack acked Hon Hafter Hcnt. unfold tcp_qvegas_cong_avoid.
  apply Z.eqb_neq in Hon. rewrite Hon, Hafter.
  cbv zeta. rewrite qvegas_restore_ca. simpl.
  apply Z.leb_le in Hcnt. rewrite Hcnt. reflexivity.
Qed.

Lemma cong_avoid_enough_samples : forall p sk ack acked,
  doing_qvegas_now (inet_csk_ca sk) <> 0 ->
  after ack (beg_snd_nxt (inet_csk_ca sk)) = true ->
  2 < cntRTT (inet_csk_ca sk) ->
  tcp_qvegas_cong_avoid p sk ack acked =
  (skd <- qvegas_decision p (qvegas_restore sk) acked ;;
   Some (qvegas_wipe skd)).
Proof.
  intros p sk ack acked Hon Hafter Hcnt. unfold tcp_qvegas_cong_avoid.
  apply Z.eqb_neq in Hon. rewrite Hon, Hafter.
  cbv zeta. rewrite qvegas_restore_ca. simpl.
  apply Z.leb_gt in Hcnt. rewrite Hcnt. reflexivity.
Qed.

End DecisionEngine.

(** ** Round-trip decision engine: the too-few-samples branch *)

Section Fallback.

Context {H : Host}.


End Fallback.


(** ** Round-trip decision engine: the delay-based branches *)

Section DelayBased.

Context {H : Host}.

(** One delay-based cycle, end to end. *)
Lemma cong_avoid_delay_based : forall p sk ack acked,
  doing_qvegas_now (inet_csk_ca sk) <> 0 ->
  after ack (beg_snd_nxt (inet_csk_ca sk)) = true ->
  2 < cntRTT (inet_csk_ca sk) ->
  minRTT (inet_csk_ca sk) <> 0 -> baseRTT (inet_csk_ca sk) <> 0 ->
  let sk0 := qvegas_restore sk in
  let ska := qvegas_clamp
               (qvegas_adjust p (qvegas_diff sk0) (qvegas_target sk0) sk0
                  acked) in
  let skd := with_tp (set_snd_ssthresh (tcp_current_ssthresh (tcp_sk ska)))
               ska in
  qvegas_decision p sk0 acked = Some skd /\
  tcp_qvegas_cong_avoid p sk ack acked = Some (qvegas_wipe skd).
Proof.
  intros p sk ack acked Hon Hafter Hcnt Hm Hb sk0 ska skd.
  assert (Hd : qvegas_decision p sk0 acked = Some skd).
  { subst skd ska. apply qvegas_decision_ok; subst sk0;
      rewrite qvegas_restore_ca; simpl; assumption. }
  split; [exact Hd |].
  rewrite (cong_avoid_enough_samples p sk ack acked Hon Hafter Hcnt).
  fold sk0. rewrite Hd. reflexivity.
Qed.

Lemma qvegas_adjust_keeps_clamp : forall p diff target sk acked,
  host_keeps_clamp H ->
  snd_cwnd_clamp (tcp_sk (qvegas_adjust p diff target sk acked)) =
  snd_cwnd_clamp (tcp_sk sk).
Proof.
  intros p diff target sk acked Hk. unfold qvegas_adjust.
  destruct ((u32 (gamma p) <? diff) && tcp_in_slow_start (tcp_sk sk)).
  - rewrite assign_qvegas_ssthresh_tp. reflexivity.
  - destruct (tcp_in_slow_start (tcp_sk sk)).
    + simpl. apply Hk.
    + destruct (u32 (beta p) <? diff).
      * rewrite assign_qvegas_ssthresh_tp. reflexivity.
      * destruct (diff <? u32 (alpha p)); reflexivity.
Qed.

(** The slow-start exit branch of [qvegas_adjust]. *)
Lemma qvegas_adjust_exit : forall p diff target sk acked,
  u32 (gamma p) < diff -> tcp_in_slow_start (tcp_sk sk) = true ->
  qvegas_adjust p diff target sk acked =
  assign_qvegas_ssthresh
    (with_tp (set_snd_cwnd
                (Z.min (snd_cwnd (tcp_sk sk)) (u32 (u32 target + 1)))) sk).
Proof.
  intros p diff target sk acked Hg Hss. unfold qvegas_adjust.
  apply Z.ltb_lt in Hg. rewrite Hg, Hss. reflexivity.
Qed.

(** The three avoidance branches of [qvegas_adjust]. *)
Lemma qvegas_adjust_avoid : forall p diff target sk acked,
  tcp_in_slow_start (tcp_sk sk) = false ->
  qvegas_adjust p diff target sk acked =
  if u32 (beta p) <? diff then
    assign_qvegas_ssthresh
      (with_tp (set_snd_cwnd (u32 (snd_cwnd (tcp_sk sk) - 1))) sk)
  else if diff <? u32 (alpha p) then
    with_tp (set_snd_cwnd (u32 (snd_cwnd (tcp_sk sk) + 1))) sk
  else sk.
Proof.
  intros p diff target sk acked Hss. unfold qvegas_adjust.
  rewrite Hss. rewrite andb_false_r. reflexivity.
Qed.

(** C10, amended: in a delay-based cycle the threshold left in the
    transport state is [tcp_current_ssthresh] of the state [tp_pre]
    reached after branch and bounds, whatever the branch.  In the two
    branches that call the helper, the value it returned sits in
    [snd_ssthresh] of [tp_pre], where the host function reads it, and is
    then replaced by the host function's result; the helper's write to
    [lost_cwnd] is in place when the decision block ends and no longer:
    the wipe that closes the cycle sets [lost_cwnd] to the final
    window. *)
Theorem decision_threshold_from_host : forall p sk ack acked,
  doing_qvegas_now (inet_csk_ca sk) <> 0 ->
  after ack (beg_snd_nxt (inet_csk_ca sk)) = true ->
  2 < cntRTT (inet_csk_ca sk) ->
  minRTT (inet_csk_ca sk) <> 0 -> baseRTT (inet_csk_ca sk) <> 0 ->
  let sk0 := qvegas_restore sk in
  let diff := qvegas_diff sk0 in
  let skb := qvegas_adjust p diff (qvegas_target sk0) sk0 acked in
  let tp_pre := tcp_sk (qvegas_clamp skb) in
  exists skd sk',
    qvegas_decision p sk0 acked = Some skd /\
    tcp_qvegas_cong_avoid p sk ack acked = Some sk' /\
    tcp_sk skd = set_snd_ssthresh (tcp_current_ssthresh tp_pre) tp_pre /\
    tcp_sk sk' = tcp_sk skd /\
    snd_ssthresh (tcp_sk sk') = tcp_current_ssthresh tp_pre /\
    inet_csk_ca skd = inet_csk_ca skb /\
    (u32 (gamma p) < diff -> tcp_in_slow_start (tcp_sk sk0) = true ->
     let skw := with_tp (set_snd_cwnd
                  (Z.min (snd_cwnd (tcp_sk sk0))
                     (u32 (u32 (qvegas_target sk0) + 1)))) sk0 in
     snd_ssthresh tp_pre = snd (tcp_qvegas_ssthresh skw) /\
     inet_csk_ca skd = inet_csk_ca (fst (tcp_qvegas_ssthresh skw))) /\
    (u32 (beta p) < diff -> tcp_in_slow_start (tcp_sk sk0) = false ->
     let skw := with_tp (set_snd_cwnd (u32 (snd_cwnd (tcp_sk sk0) - 1)))
                  sk0 in
     snd_ssthresh tp_pre = snd (tcp_qvegas_ssthresh skw) /\
     inet_csk_ca skd = inet_csk_ca (fst (tcp_qvegas_ssthresh skw))) /\
    lost_cwnd (inet_csk_ca sk') = snd_cwnd (tcp_sk sk').
Proof.
  intros p sk ack acked Hon Hafter Hcnt Hm Hb sk0 diff skb tp_pre.
  destruct (cong_avoid_delay_based p sk ack acked Hon Hafter Hcnt Hm Hb)
    as [Hd Hc].
  fold sk0 in Hd, Hc. fold diff in Hd, Hc. fold skb in Hd, Hc.
  fold tp_pre in Hd, Hc.
  eexists. eexists.
  split; [exact Hd |]. split; [exact Hc |].
  split; [reflexivity |]. split; [reflexivity |].
  split; [reflexivity |].
  split; [simpl; apply qvegas_clamp_ca |].
  split; [| split; [| reflexivity]].
  - intros Hg Hss skw. subst tp_pre skb.
    rewrite (qvegas_adjust_exit p diff _ sk0 acked Hg Hss). fold skw.
    split.
    + rewrite qvegas_clamp_tp, assign_qvegas_ssthresh_tp. reflexivity.
    + simpl. rewrite qvegas_clamp_ca. apply assign_qvegas_ssthresh_ca.
  - intros Hbeta Hss skw. subst tp_pre skb.
    rewrite (qvegas_adjust_avoid p diff _ sk0 acked Hss).
    apply Z.ltb_lt in Hbeta. rewrite Hbeta. fold skw.
    split.
    + rewrite qvegas_clamp_tp, assign_qvegas_ssthresh_tp. reflexivity.
    + simpl. rewrite qvegas_clamp_ca. apply assign_qvegas_ssthresh_ca.
Qed.

(** C2, amended: a delay-based cycle ([cntRTT > 2]) on a connection whose
    clamp ceiling is at least 4 leaves [4 <= snd_cwnd <= snd_cwnd_clamp],
    in the slow-start exit, slow-start growth and avoidance branches
    alike, for every host whose slow start leaves the ceiling alone. *)
Theorem decision_window_bounds : forall p sk ack acked,
  host_keeps_clamp H ->
  doing_qvegas_now (inet_csk_ca sk) <> 0 ->
  after ack (beg_snd_nxt (inet_csk_ca sk)) = true ->
  2 < cntRTT (inet_csk_ca sk) ->
  minRTT (inet_csk_ca sk) <> 0 -> baseRTT (inet_csk_ca sk) <> 0 ->
  4 <= snd_cwnd_clamp (tcp_sk sk) ->
  exists sk',
    tcp_qvegas_cong_avoid p sk ack acked = Some sk' /\
    snd_cwnd_clamp (tcp_sk sk') = snd_cwnd_clamp (tcp_sk sk) /\
    4 <= snd_cwnd (tcp_sk sk') <= snd_cwnd_clamp (tcp_sk sk).
Proof.
  intros p sk ack acked Hk Hon Hafter Hcnt Hm Hb Hclamp.
  destruct (cong_avoid_delay_based p sk ack acked Hon Hafter Hcnt Hm Hb)
    as [_ Hc].
  eexists. split; [exact Hc |].
  cbn [qvegas_wipe with_ca with_tp tcp_sk].
  rewrite qvegas_clamp_tp.
  cbn [set_snd_ssthresh set_snd_cwnd snd_cwnd snd_cwnd_clamp].
  rewrite (qvegas_adjust_keeps_clamp _ _ _ _ _ Hk).
  rewrite qvegas_restore_tp. cbn [set_snd_cwnd snd_cwnd_clamp].
  split; [reflexivity |].
  apply clamp_window_bounds. exact Hclamp.
Qed.

End DelayBased.

(** ** Slow-start exit and steady-state avoidance *)

Section ExitAndAvoidance.

Context {H : Host}.

Lemma qvegas_target_restore : forall sk,
  wf_sock sk ->
  qvegas_target (qvegas_restore sk) =
  lost_cwnd (inet_csk_ca sk) * baseRTT (inet_csk_ca sk)
  / minRTT (inet_csk_ca sk).
Proof.
  intros sk [_ Hq]. unfold qvegas_target.
  rewrite qvegas_restore_tp, qvegas_restore_ca. simpl.
  unfold wf_qvegas in Hq.
  rewrite u64_mul_u32; [reflexivity | tauto | tauto].
Qed.

Lemma qvegas_diff_restore : forall sk,
  qvegas_diff (qvegas_restore sk) =
  u32 (lost_cwnd (inet_csk_ca sk)
       * u32 (minRTT (inet_csk_ca sk) - baseRTT (inet_csk_ca sk)))
  / baseRTT (inet_csk_ca sk).
Proof. intro sk. reflexivity. Qed.

(** Without 32-bit overflow [diff] is the floor of
    [cwnd * (rtt - baseRTT) / baseRTT]. *)
Lemma qvegas_diff_exact : forall sk,
  wf_sock sk ->
  baseRTT (inet_csk_ca sk) <= minRTT (inet_csk_ca sk) ->
  lost_cwnd (inet_csk_ca sk)
  * (minRTT (inet_csk_ca sk) - baseRTT (inet_csk_ca sk)) < 2 ^ 32 ->
  qvegas_diff (qvegas_restore sk) =
  lost_cwnd (inet_csk_ca sk)
  * (minRTT (inet_csk_ca sk) - baseRTT (inet_csk_ca sk))
  / baseRTT (inet_csk_ca sk).
Proof.
  intros sk [_ Hq] Hle Hsmall. rewrite qvegas_diff_restore.
  unfold wf_qvegas, is_u32 in Hq.
  rewrite (u32_small (minRTT (inet_csk_ca sk) - baseRTT (inet_csk_ca sk)))
    by (unfold is_u32; lia).
  rewrite u32_small; [reflexivity |].
  unfold is_u32. split; [apply Z.mul_nonneg_nonneg; lia | exact Hsmall].
Qed.

(** C3, amended: in a delay-based cycle that finds [diff > gamma] in slow
    start, line 275 sets the window to
    [w = min(cwnd, (u32)target_cwnd + 1)], where [cwnd] is the restored
    saved window and [target_cwnd = cwnd * baseRTT / rtt] in 64 bits; the
    helper then returns [th = max(min(snd_ssthresh, w - 1), 2)], at most
    [w - 1] once [w >= 3].  The window written back is [w] raised to 4 or
    lowered to the clamp ceiling, so it is [w] itself when
    [4 <= w <= clamp], and the threshold written back is
    [tcp_current_ssthresh] of the state holding that window and [th]. *)
Theorem slow_start_exit_window : forall p sk ack acked,
  wf_sock sk ->
  doing_qvegas_now (inet_csk_ca sk) <> 0 ->
  after ack (beg_snd_nxt (inet_csk_ca sk)) = true ->
  2 < cntRTT (inet_csk_ca sk) ->
  minRTT (inet_csk_ca sk) <> 0 -> baseRTT (inet_csk_ca sk) <> 0 ->
  u32 (gamma p) < qvegas_diff (qvegas_restore sk) ->
  tcp_in_slow_start (tcp_sk (qvegas_restore sk)) = true ->
  let tp := tcp_sk sk in
  let q := inet_csk_ca sk in
  let target := lost_cwnd q * baseRTT q / minRTT q in
  let w := Z.min (lost_cwnd q) (u32 (u32 target + 1)) in
  let th := Z.max (Z.min (snd_ssthresh tp) (u32 (w - 1))) 2 in
  let wf := clamp_window w (snd_cwnd_clamp tp) in
  let tp_pre :=
    mk_tcp_sock (snd_nxt tp) wf th (snd_cwnd_clamp tp) (snd_cwnd_cnt tp)
      (lost_out tp) (max_packets_out tp) (is_cwnd_limited tp)
      (icsk_ca_state tp) in
  exists sk',
    tcp_qvegas_cong_avoid p sk ack acked = Some sk' /\
    tcp_sk sk' = set_snd_ssthresh (tcp_current_ssthresh tp_pre) tp_pre /\
    snd_cwnd (tcp_sk sk') = wf /\
    (4 <= w <= snd_cwnd_clamp tp -> snd_cwnd (tcp_sk sk') = w) /\
    (3 <= w -> th <= w - 1) /\
    (target + 1 < 2 ^ 32 -> w = Z.min (lost_cwnd q) (target + 1)).
Proof.
  intros p sk ack acked Hwf Hon Hafter Hcnt Hm Hb Hg Hss tp q target w th wf
    tp_pre.
  destruct (cong_avoid_delay_based p sk ack acked Hon Hafter Hcnt Hm Hb)
    as [_ Hc].
  rewrite (qvegas_adjust_exit p _ _ _ acked Hg Hss) in Hc.
  rewrite (qvegas_target_restore sk Hwf) in Hc.
  fold q in Hc. fold target in Hc.
  assert (Htp : forall v,
    tcp_sk (qvegas_wipe (with_tp (set_snd_ssthresh v)
      (qvegas_clamp (assign_qvegas_ssthresh
        (with_tp (set_snd_cwnd
           (Z.min (snd_cwnd (tcp_sk (qvegas_restore sk)))
              (u32 (u32 target + 1)))) (qvegas_restore sk))))))
    = set_snd_ssthresh v tp_pre).
  { intro v. cbn [qvegas_wipe with_ca with_tp tcp_sk].
    rewrite qvegas_clamp_tp, assign_qvegas_ssthresh_tp. reflexivity. }
  assert (Hpre : tcp_sk (qvegas_clamp (assign_qvegas_ssthresh
        (with_tp (set_snd_cwnd
           (Z.min (snd_cwnd (tcp_sk (qvegas_restore sk)))
              (u32 (u32 target + 1)))) (qvegas_restore sk)))) = tp_pre).
  { rewrite qvegas_clamp_tp, assign_qvegas_ssthresh_tp. reflexivity. }
  rewrite Hpre in Hc.
  eexists. split; [exact Hc |].
  split; [rewrite Htp; reflexivity |].
  split; [rewrite Htp; reflexivity |].
  split; [| split].
  - intros Hw. rewrite Htp. simpl. subst wf. unfold clamp_window.
    destruct (w <? 4) eqn:E4; [apply Z.ltb_lt in E4; lia |].
    destruct (snd_cwnd_clamp tp <? w) eqn:Ec; [apply Z.ltb_lt in Ec; lia |].
    reflexivity.
  - intro H3.
    assert (Hlt : w < 2 ^ 32).
    { pose proof (u32_range (u32 target + 1)) as Hr. unfold is_u32 in Hr.
      subst w. lia. }
    subst th. rewrite u32_pred by lia. lia.
  - intro Hsmall.
    assert (H0 : 0 <= target).
    { destruct Hwf as [_ Hq]. unfold wf_qvegas, is_u32 in Hq.
      subst target q. apply Z.div_pos; [apply Z.mul_nonneg_nonneg; lia | lia]. }
    subst w. rewrite (u32_small target) by (unfold is_u32; lia).
    rewrite u32_small by (unfold is_u32; lia). reflexivity.
Qed.

(** C4, amended: in a delay-based cycle outside slow start, with [diff]
    the 32-bit quotient of line 261 (the floor of
    [cwnd * (rtt - baseRTT) / baseRTT] when the product fits 32 bits),
    the window before the final bounds is the restored saved window minus
    1 if [diff > beta] (the helper then recomputes the threshold), plus 1
    if [diff < alpha], and unchanged otherwise; the window written back is
    that value raised to 4 or lowered to the clamp ceiling, so the step is
    exactly -1, +1 or 0 whenever the stepped window lies between 4 and the
    ceiling.  With [baseRTT = 10000], [minRTT = 15000], window 20,
    [beta = 4] and a ceiling of at least 19, [diff] is 10 and the window
    becomes 19. *)
Theorem avoidance_window : forall p sk ack acked,
  wf_sock sk ->
  doing_qvegas_now (inet_csk_ca sk) <> 0 ->
  after ack (beg_snd_nxt (inet_csk_ca sk)) = true ->
  2 < cntRTT (inet_csk_ca sk) ->
  minRTT (inet_csk_ca sk) <> 0 -> baseRTT (inet_csk_ca sk) <> 0 ->
  tcp_in_slow_start (tcp_sk (qvegas_restore sk)) = false ->
  let tp := tcp_sk sk in
  let q := inet_csk_ca sk in
  let cwnd := lost_cwnd q in
  let diff := u32 (cwnd * u32 (minRTT q - baseRTT q)) / baseRTT q in
  let w := if u32 (beta p) <? diff then u32 (cwnd - 1)
           else if diff <? u32 (alpha p) then u32 (cwnd + 1)
           else cwnd in
  let th := if u32 (beta p) <? diff
            then Z.max (Z.min (snd_ssthresh tp) (u32 (w - 1))) 2
            else snd_ssthresh tp in
  let wf := clamp_window w (snd_cwnd_clamp tp) in
  let tp_pre :=
    mk_tcp_sock (snd_nxt tp) wf th (snd_cwnd_clamp tp) (snd_cwnd_cnt tp)
      (lost_out tp) (max_packets_out tp) (is_cwnd_limited tp)
      (icsk_ca_state tp) in
  exists sk',
    tcp_qvegas_cong_avoid p sk ack acked = Some sk' /\
    tcp_sk sk' = set_snd_ssthresh (tcp_current_ssthresh tp_pre) tp_pre /\
    snd_cwnd (tcp_sk sk') = wf /\
    (baseRTT q <= minRTT q -> cwnd * (minRTT q - baseRTT q) < 2 ^ 32 ->
     diff = cwnd * (minRTT q - baseRTT q) / baseRTT q) /\
    (u32 (beta p) < diff -> 5 <= cwnd <= snd_cwnd_clamp tp + 1 ->
     snd_cwnd (tcp_sk sk') = cwnd - 1) /\
    (diff <= u32 (beta p) -> diff < u32 (alpha p) ->
     3 <= cwnd < snd_cwnd_clamp tp ->
     snd_cwnd (tcp_sk sk') = cwnd + 1) /\
    (diff <= u32 (beta p) -> u32 (alpha p) <= diff ->
     4 <= cwnd <= snd_cwnd_clamp tp ->
     snd_cwnd (tcp_sk sk') = cwnd) /\
    (baseRTT q = 10000 -> minRTT q = 15000 -> cwnd = 20 ->
     u32 (beta p) = 4 -> 19 <= snd_cwnd_clamp tp ->
     diff = 10 /\ snd_cwnd (tcp_sk sk') = 19).
Proof.
  intros p sk ack acked Hwf Hon Hafter Hcnt Hm Hb Hss tp q cwnd diff w th wf
    tp_pre.
  destruct (cong_avoid_delay_based p sk ack acked Hon Hafter Hcnt Hm Hb)
    as [_ Hc].
  rewrite (qvegas_adjust_avoid p _ _ _ acked Hss) in Hc.
  rewrite qvegas_diff_restore in Hc.
  fold q in Hc. fold cwnd in Hc. fold diff in Hc.
  assert (Hpre : tcp_sk (qvegas_clamp
    (if u32 (beta p) <? diff
     then assign_qvegas_ssthresh
            (with_tp (set_snd_cwnd
               (u32 (snd_cwnd (tcp_sk (qvegas_restore sk)) - 1)))
               (qvegas_restore sk))
     else if diff <? u32 (alpha p)
          then with_tp (set_snd_cwnd
                 (u32 (snd_cwnd (tcp_sk (qvegas_restore sk)) + 1)))
                 (qvegas_restore sk)
          else qvegas_restore sk)) = tp_pre).
  { rewrite qvegas_clamp_tp. subst tp_pre wf th w.
    destruct (u32 (beta p) <? diff).
    - rewrite assign_qvegas_ssthresh_tp. reflexivity.
    - destruct (diff <? u32 (alpha p)); reflexivity. }
  assert (Hfin : exists sk',
    tcp_qvegas_cong_avoid p sk ack acked = Some sk' /\
    tcp_sk sk' = set_snd_ssthresh (tcp_current_ssthresh tp_pre) tp_pre).
  { eexists. split; [exact Hc |].
    cbn [qvegas_wipe with_ca with_tp tcp_sk]. rewrite Hpre. reflexivity. }
  destruct Hfin as [sk' [Hrun Htp]].
  assert (Hclamp : is_u32 (snd_cwnd_clamp tp) /\ is_u32 cwnd).
  { destruct Hwf as [Ht Hq]. unfold wf_tcp_sock in Ht. unfold wf_qvegas in Hq.
    subst tp cwnd q. tauto. }
  destruct Hclamp as [Hcl Hcw]. unfold is_u32 in Hcl, Hcw.
  assert (Hdec : u32 (beta p) < diff -> 5 <= cwnd <= snd_cwnd_clamp tp + 1 ->
                 wf = cwnd - 1).
  { intros Hbeta Hrange. subst wf w. apply Z.ltb_lt in Hbeta.
    rewrite Hbeta. rewrite u32_pred by lia. unfold clamp_window.
    destruct (cwnd - 1 <? 4) eqn:E4; [apply Z.ltb_lt in E4; lia |].
    destruct (snd_cwnd_clamp tp <? cwnd - 1) eqn:Ec;
      [apply Z.ltb_lt in Ec; lia | reflexivity]. }
  exists sk'. split; [exact Hrun |]. split; [exact Htp |].
  split; [rewrite Htp; reflexivity |].
  split; [| split; [| split; [| split]]].
  - intros Hle Hsmall. exact (qvegas_diff_exact sk Hwf Hle Hsmall).
  - intros Hbeta Hrange. rewrite Htp. simpl. apply Hdec; assumption.
  - intros Hbeta Halpha Hrange. rewrite Htp. simpl. subst wf w.
    apply Z.ltb_ge in Hbeta. rewrite Hbeta.
    apply Z.ltb_lt in Halpha. rewrite Halpha.
    rewrite u32_small by (unfold is_u32; lia). unfold clamp_window.
    destruct (cwnd + 1 <? 4) eqn:E4; [apply Z.ltb_lt in E4; lia |].
    destruct (snd_cwnd_clamp tp <? cwnd + 1) eqn:Ec;
      [apply Z.ltb_lt in Ec; lia | reflexivity].
  - intros Hbeta Halpha Hrange. rewrite Htp. simpl. subst wf w.
    apply Z.ltb_ge in Hbeta. rewrite Hbeta.
    apply Z.ltb_ge in Halpha. rewrite Halpha. unfold clamp_window.
    destruct (cwnd <? 4) eqn:E4; [apply Z.ltb_lt in E4; lia |].
    destruct (snd_cwnd_clamp tp <? cwnd) eqn:Ec;
      [apply Z.ltb_lt in Ec; lia | reflexivity].
  - intros Hbase Hmin Hwin Hbeta4 Hceil.
    assert (Hd10 : diff = 10).
    { subst diff. rewrite Hbase, Hmin, Hwin. vm_compute. reflexivity. }
    split; [exact Hd10 |].
    rewrite Htp. simpl.
    rewrite Hdec; [lia | rewrite Hbeta4, Hd10; lia | lia].
Qed.

End ExitAndAvoidance.

(** ** Base RTT and the divisors *)

Section Divisors.

Context {H : Host}.

Lemma reno_step_ca : forall sk ack acked,
  baseRTT (inet_csk_ca (reno_step sk ack acked)) = baseRTT (inet_csk_ca sk) /\
  minRTT (inet_csk_ca (reno_step sk ack acked)) = minRTT (inet_csk_ca sk).
Proof. intros sk ack acked. split; reflexivity. Qed.

Lemma qvegas_decision_baseRTT : forall p sk acked skd,
  qvegas_decision p sk acked = Some skd ->
  baseRTT (inet_csk_ca skd) = baseRTT (inet_csk_ca sk).
Proof.
  intros p sk acked skd Hd.
  destruct (Z.eq_dec (minRTT (inet_csk_ca sk)) 0) as [Hm | Hm];
    [rewrite qvegas_decision_fault in Hd by (left; exact Hm); discriminate |].
  destruct (Z.eq_dec (baseRTT (inet_csk_ca sk)) 0) as [Hb | Hb];
    [rewrite qvegas_decision_fault in Hd by (right; exact Hb); discriminate |].
  rewrite (qvegas_decision_ok p sk acked Hm Hb) in Hd.
  cbv zeta in Hd. injection Hd as Hd. subst skd.
  cbn [with_tp inet_csk_ca]. rewrite qvegas_clamp_ca.
  destruct (same_but_lost_cwnd_rtts _ _
              (qvegas_adjust_ca p (qvegas_diff sk) (qvegas_target sk) sk acked))
    as [Hbase _].
  exact Hbase.
Qed.

(** The decision engine never writes [baseRTT], and leaves [minRTT] either
    as it was or at the unset value. *)
Lemma cong_avoid_rtts : forall p sk ack acked sk',
  tcp_qvegas_cong_avoid p sk ack acked = Some sk' ->
  baseRTT (inet_csk_ca sk') = baseRTT (inet_csk_ca sk) /\
  (minRTT (inet_csk_ca sk') = minRTT (inet_csk_ca sk) \/
   minRTT (inet_csk_ca sk') = 0x7fffffff).
Proof.
  intros p sk ack acked sk' Hrun. unfold tcp_qvegas_cong_avoid in Hrun.
  destruct (doing_qvegas_now (inet_csk_ca sk) =? 0).
  - injection Hrun as Hrun. subst sk'. split; [| left]; reflexivity.
  - destruct (after ack (beg_snd_nxt (inet_csk_ca sk))).
    + cbv zeta in Hrun.
      destruct (cntRTT (inet_csk_ca (qvegas_restore sk)) <=? 2).
      * simpl in Hrun. injection Hrun as Hrun. subst sk'.
        split; [| right]; reflexivity.
      * destruct (qvegas_decision p (qvegas_restore sk) acked) as [skd |] eqn:Hd;
          [| discriminate].
        simpl in Hrun. injection Hrun as Hrun. subst sk'.
        split; [| right; reflexivity].
        cbn [qvegas_wipe with_ca inet_csk_ca set_cntRTT set_minRTT
             set_lost_cwnd baseRTT].
        rewrite (qvegas_decision_baseRTT p _ acked skd Hd). reflexivity.
    + destruct (tcp_in_slow_start (tcp_sk sk));
        injection Hrun as Hrun; subst sk'; split; [| left | | left];
        reflexivity.
Qed.

(** With both minima at 1 or more the decision engine returns. *)
Lemma cong_avoid_returns : forall p sk ack acked,
  minRTT (inet_csk_ca sk) <> 0 -> baseRTT (inet_csk_ca sk) <> 0 ->
  exists sk', tcp_qvegas_cong_avoid p sk ack acked = Some sk'.
Proof.
  intros p sk ack acked Hm Hb. unfold tcp_qvegas_cong_avoid.
  destruct (doing_qvegas_now (inet_csk_ca sk) =? 0); [eexists; reflexivity |].
  destruct (after ack (beg_snd_nxt (inet_csk_ca sk))).
  - cbv zeta.
    destruct (cntRTT (inet_csk_ca (qvegas_restore sk)) <=? 2);
      [eexists; reflexivity |].
    rewrite qvegas_decision_ok by (rewrite qvegas_restore_ca; assumption).
    eexists. reflexivity.
  - destruct (tcp_in_slow_start (tcp_sk sk)); eexists; reflexivity.
Qed.

Lemma reachable_minima : forall sk,
  reachable sk ->
  1 <= baseRTT (inet_csk_ca sk) /\ 1 <= minRTT (inet_csk_ca sk).
Proof.
  intros sk Hr. induction Hr as
    [sk | sk sample Hr IH Hs | p sk ack acked sk' Hr IH Hrun
     | sk ca_state Hr IH | sk event Hr IH | sk tp Hr IH].
  - destruct (tcp_qvegas_init_rtts sk) as [Hb Hm]. rewrite Hb, Hm. lia.
  - destruct IH as [Hb Hm]. apply pkts_acked_minima_pos; assumption.
  - destruct (cong_avoid_rtts p sk ack acked sk' Hrun) as [Hb Hm]. lia.
  - unfold tcp_qvegas_state. destruct (ca_state =? TCP_CA_Open); simpl; lia.
  - unfold tcp_qvegas_cwnd_event. destruct (is_restart_event event).
    + destruct (tcp_qvegas_init_rtts sk) as [Hb Hm]. rewrite Hb, Hm. lia.
    + exact IH.
  - exact IH.
Qed.

(** C8: in every state reachable from a full reset both minima are at
    least 1, so the two divisions of the delay-based computation never
    fault and the decision engine always returns; a valid sample never
    raises [baseRTT] and keeps it at 1 or more, a run of samples never
    raises it either, and the decision engine leaves it untouched. *)
Theorem reachable_divisors_nonzero : forall sk,
  reachable sk ->
  1 <= baseRTT (inet_csk_ca sk) /\
  1 <= minRTT (inet_csk_ca sk) /\
  (forall p ack acked,
     exists sk', tcp_qvegas_cong_avoid p sk ack acked = Some sk') /\
  (forall p acked,
     2 < cntRTT (inet_csk_ca sk) ->
     exists skd, qvegas_decision p (qvegas_restore sk) acked = Some skd) /\
  (forall sample,
     valid_sample sample ->
     1 <= baseRTT (inet_csk_ca (tcp_qvegas_pkts_acked sk sample))
     <= baseRTT (inet_csk_ca sk)) /\
  (forall samples,
     baseRTT (inet_csk_ca (pkts_acked_all sk samples))
     <= baseRTT (inet_csk_ca sk)) /\
  (forall p ack acked sk',
     tcp_qvegas_cong_avoid p sk ack acked = Some sk' ->
     baseRTT (inet_csk_ca sk') = baseRTT (inet_csk_ca sk)).
Proof.
  intros sk Hr. destruct (reachable_minima sk Hr) as [Hb Hm].
  split; [exact Hb |]. split; [exact Hm |].
  split; [| split; [| split; [| split]]].
  - intros p ack acked. apply cong_avoid_returns; lia.
  - intros p acked _. eexists.
    apply qvegas_decision_ok; rewrite qvegas_restore_ca; simpl; lia.
  - intros sample [Hpos Hs]. split.
    + apply pkts_acked_minima_pos; assumption.
    + apply pkts_acked_baseRTT_le.
  - intro samples. apply pkts_acked_all_baseRTT_le.
  - intros p ack acked sk' Hrun.
    destruct (cong_avoid_rtts p sk ack acked sk' Hrun) as [Hbase _].
    exact Hbase.
Qed.

End Divisors.

(** ** The hooks on the reference host *)

Lemma linux_keeps_clamp : host_keeps_clamp linux_host.
Proof. intros tp acked. reflexivity. Qed.

Lemma cycle_due_500_600 : forall tp saved cnt rtt base,
  cycle_due (H := linux_host) (mk_sock tp (qv_active saved cnt rtt base)) 600.
Proof.
  intros tp saved cnt rtt base. split.
  - simpl. discriminate.
  - vm_compute. reflexivity.
Qed.

(** C2 as stated fails in two ways.  With one sample only, the saved
    window 2 comes back from the fallback step unchanged and is written
    back below 4, under a ceiling of 100.  With five samples under a
    ceiling of 2, the avoidance step 2 -> 3 is raised to 4, above the
    ceiling: the floor of 4 is applied first and the ceiling is then
    skipped. *)
Lemma cycle_window_bounds_fail :
  let run := tcp_qvegas_cong_avoid (H := linux_host) default_params in
  (cycle_due (H := linux_host) sk_few_samples 600 /\
   cntRTT (inet_csk_ca sk_few_samples) <= 2 /\
   snd_cwnd_clamp (tcp_sk sk_few_samples) = 100 /\
   window_after (run sk_few_samples 600 1) = Some 2 /\
   ~ 4 <= 2) /\
  (cycle_due (H := linux_host) sk_low_clamp 600 /\
   2 < cntRTT (inet_csk_ca sk_low_clamp) /\
   snd_cwnd_clamp (tcp_sk sk_low_clamp) = 2 /\
   window_after (run sk_low_clamp 600 1) = Some 4 /\
   ~ 4 <= 2).
Proof.
  cbv zeta. split.
  - split; [apply cycle_due_500_600 |].
    split; [simpl; lia |]. split; [reflexivity |].
    split; [vm_compute; reflexivity | lia].
  - split; [apply cycle_due_500_600 |].
    split; [simpl; lia |]. split; [reflexivity |].
    split; [vm_compute; reflexivity | lia].
Qed.

Lemma decision_window_bounds_witness :
  (host_keeps_clamp linux_host /\
   cycle_due (H := linux_host) sk_exit_mild 600 /\
   2 < cntRTT (inet_csk_ca sk_exit_mild) /\
   minRTT (inet_csk_ca sk_exit_mild) <> 0 /\
   baseRTT (inet_csk_ca sk_exit_mild) <> 0 /\
   4 <= snd_cwnd_clamp (tcp_sk sk_exit_mild)) /\
  exists sk',
    tcp_qvegas_cong_avoid (H := linux_host) default_params sk_exit_mild 600 1
    = Some sk' /\
    4 <= snd_cwnd (tcp_sk sk') <= 1000.
Proof.
  assert (Hdue : cycle_due (H := linux_host) sk_exit_mild 600)
    by apply cycle_due_500_600.
  assert (Hcnt : 2 < cntRTT (inet_csk_ca sk_exit_mild)) by (simpl; lia).
  assert (Hm : minRTT (inet_csk_ca sk_exit_mild) <> 0)
    by (simpl; discriminate).
  assert (Hb : baseRTT (inet_csk_ca sk_exit_mild) <> 0)
    by (simpl; discriminate).
  assert (Hc : 4 <= snd_cwnd_clamp (tcp_sk sk_exit_mild)) by (simpl; lia).
  split;
    [exact (conj linux_keeps_clamp
              (conj Hdue (conj Hcnt (conj Hm (conj Hb Hc))))) |].
  destruct (decision_window_bounds (H := linux_host) default_params
              sk_exit_mild 600 1 linux_keeps_clamp (proj1 Hdue) (proj2 Hdue)
              Hcnt Hm Hb Hc) as [sk' [Hrun [_ Hbounds]]].
  exists sk'. split; [exact Hrun | exact Hbounds].
Defined.

(** C3 as stated fails on [sk_exit_steep]: [diff = 190 > gamma] in slow
    start and [min(10, 0 + 1) = 1], yet the window written back is 4; the
    helper returns 2 and the threshold written back is 3, neither of them
    at most [1 - 1]. *)
Lemma slow_start_exit_as_stated_fails :
  let run := tcp_qvegas_cong_avoid (H := linux_host) default_params in
  let sk0 := qvegas_restore sk_exit_steep in
  let target := 10 * 1000 / 20000 in
  let w := Z.min 10 (target + 1) in
  cycle_due (H := linux_host) sk_exit_steep 600 /\
  2 < cntRTT (inet_csk_ca sk_exit_steep) /\
  Linux.tcp_in_slow_start (tcp_sk sk0) = true /\
  qvegas_diff sk0 = 190 /\ u32 (gamma default_params) < 190 /\
  qvegas_target sk0 = target /\
  w = 1 /\
  window_after (run sk_exit_steep 600 1) = Some 4 /\
  snd (tcp_qvegas_ssthresh (with_tp (set_snd_cwnd w) sk0)) = 2 /\
  ssthresh_after (run sk_exit_steep 600 1) = Some 3 /\
  4 <> w /\ ~ 2 <= w - 1 /\ ~ 3 <= w - 1.
Proof.
  cbv zeta.
  split; [apply cycle_due_500_600 |].
  split; [simpl; lia |].
  repeat split; try (vm_compute; reflexivity); vm_compute; congruence.
Qed.

Lemma slow_start_exit_window_witness :
  (wf_sock sk_exit_mild /\
   cycle_due (H := linux_host) sk_exit_mild 600 /\
   2 < cntRTT (inet_csk_ca sk_exit_mild) /\
   minRTT (inet_csk_ca sk_exit_mild) <> 0 /\
   baseRTT (inet_csk_ca sk_exit_mild) <> 0 /\
   u32 (gamma default_params) < qvegas_diff (qvegas_restore sk_exit_mild) /\
   tcp_in_slow_start (Host := linux_host)
     (tcp_sk (qvegas_restore sk_exit_mild)) = true) /\
  exists sk',
    tcp_qvegas_cong_avoid (H := linux_host) default_params sk_exit_mild 600 1
    = Some sk' /\
    snd_cwnd (tcp_sk sk') = 7 /\ snd_ssthresh (tcp_sk sk') = 6.
Proof.
  assert (Hwf : wf_sock sk_exit_mild)
    by (repeat split; vm_compute; congruence).
  assert (Hdue : cycle_due (H := linux_host) sk_exit_mild 600)
    by apply cycle_due_500_600.
  assert (Hcnt : 2 < cntRTT (inet_csk_ca sk_exit_mild)) by (simpl; lia).
  assert (Hm : minRTT (inet_csk_ca sk_exit_mild) <> 0)
    by (simpl; discriminate).
  assert (Hb : baseRTT (inet_csk_ca sk_exit_mild) <> 0)
    by (simpl; discriminate).
  assert (Hg : u32 (gamma default_params)
               < qvegas_diff (qvegas_restore sk_exit_mild))
    by (vm_compute; reflexivity).
  assert (Hss : tcp_in_slow_start (Host := linux_host)
                  (tcp_sk (qvegas_restore sk_exit_mild)) = true)
    by (vm_compute; reflexivity).
  split;
    [exact (conj Hwf (conj Hdue (conj Hcnt (conj Hm (conj Hb (conj Hg Hss))))))
    |].
  destruct (slow_start_exit_window (H := linux_host) default_params
              sk_exit_mild 600 1 Hwf (proj1 Hdue) (proj2 Hdue) Hcnt Hm Hb
              Hg Hss) as [sk' [Hrun [Htp _]]].
  exists sk'. split; [exact Hrun |].
  rewrite Htp. split; vm_compute; reflexivity.
Defined.

(** C4 as stated fails in two ways.  On [sk_avoid_floor], outside slow
    start with [diff = 8 > beta], the window 4 is decremented to 3 and
    raised back to 4: it is not lowered by 1.  On [sk_avoid_wrap] the
    floor of [20 * 214748365 / 10000] is 429496 and exceeds [beta], but
    the 32-bit product wraps, the code finds [diff = 0 < alpha], and the
    window grows to 21. *)
Lemma avoidance_as_stated_fails :
  let run := tcp_qvegas_cong_avoid (H := linux_host) default_params in
  (cycle_due (H := linux_host) sk_avoid_floor 600 /\
   2 < cntRTT (inet_csk_ca sk_avoid_floor) /\
   Linux.tcp_in_slow_start (tcp_sk (qvegas_restore sk_avoid_floor)) = false /\
   4 * (30000 - 10000) / 10000 = 8 /\
   u32 (beta default_params) < 8 /\
   window_after (run sk_avoid_floor 600 1) = Some 4 /\
   4 <> 4 - 1) /\
  (cycle_due (H := linux_host) sk_avoid_wrap 600 /\
   2 < cntRTT (inet_csk_ca sk_avoid_wrap) /\
   Linux.tcp_in_slow_start (tcp_sk (qvegas_restore sk_avoid_wrap)) = false /\
   20 * (214758365 - 10000) / 10000 = 429496 /\
   u32 (beta default_params) < 429496 /\
   qvegas_diff (qvegas_restore sk_avoid_wrap) = 0 /\
   window_after (run sk_avoid_wrap 600 1) = Some 21 /\
   21 <> 20 - 1).
Proof.
  cbv zeta. split.
  - split; [apply cycle_due_500_600 |].
    split; [simpl; lia |].
    repeat split; try (vm_compute; reflexivity); lia.
  - split; [apply cycle_due_500_600 |].
    split; [simpl; lia |].
    repeat split; try (vm_compute; reflexivity); lia.
Qed.

Lemma avoidance_window_witness :
  (wf_sock sk_overloaded /\
   cycle_due (H := linux_host) sk_overloaded 600 /\
   2 < cntRTT (inet_csk_ca sk_overloaded) /\
   minRTT (inet_csk_ca sk_overloaded) <> 0 /\
   baseRTT (inet_csk_ca sk_overloaded) <> 0 /\
   tcp_in_slow_start (Host := linux_host)
     (tcp_sk (qvegas_restore sk_overloaded)) = false) /\
  exists sk',
    tcp_qvegas_cong_avoid (H := linux_host) default_params sk_overloaded
      600 1 = Some sk' /\
    snd_cwnd (tcp_sk sk') = 19.
Proof.
  assert (Hwf : wf_sock sk_overloaded)
    by (repeat split; vm_compute; congruence).
  assert (Hdue : cycle_due (H := linux_host) sk_overloaded 600)
    by apply cycle_due_500_600.
  assert (Hcnt : 2 < cntRTT (inet_csk_ca sk_overloaded)) by (simpl; lia).
  assert (Hm : minRTT (inet_csk_ca sk_overloaded) <> 0)
    by (simpl; discriminate).
  assert (Hb : baseRTT (inet_csk_ca sk_overloaded) <> 0)
    by (simpl; discriminate).
  assert (Hss : tcp_in_slow_start (Host := linux_host)
                  (tcp_sk (qvegas_restore sk_overloaded)) = false)
    by (vm_compute; reflexivity).
  split;
    [exact (conj Hwf (conj Hdue (conj Hcnt (conj Hm (conj Hb Hss))))) |].
  destruct (avoidance_window (H := linux_host) default_params sk_overloaded
              600 1 Hwf (proj1 Hdue) (proj2 Hdue) Hcnt Hm Hb Hss)
    as [sk' [Hrun [_ [_ [_ [_ [_ [_ Hscenario]]]]]]]].
  exists sk'. split; [exact Hrun |].
  apply Hscenario; try reflexivity. simpl. lia.
Defined.

Lemma decision_threshold_from_host_witness :
  (cycle_due (H := linux_host) sk_overloaded 600 /\
   2 < cntRTT (inet_csk_ca sk_overloaded) /\
   minRTT (inet_csk_ca sk_overloaded) <> 0 /\
   baseRTT (inet_csk_ca sk_overloaded) <> 0) /\
  exists sk',
    tcp_qvegas_cong_avoid (H := linux_host) default_params sk_overloaded
      600 1 = Some sk' /\
    snd_ssthresh (tcp_sk sk') =
      Linux.tcp_current_ssthresh (tp_open 1000 19 10 1000) /\
    lost_cwnd (inet_csk_ca sk') = snd_cwnd (tcp_sk sk').
Proof.
  assert (Hdue : cycle_due (H := linux_host) sk_overloaded 600)
    by apply cycle_due_500_600.
  assert (Hcnt : 2 < cntRTT (inet_csk_ca sk_overloaded)) by (simpl; lia).
  assert (Hm : minRTT (inet_csk_ca sk_overloaded) <> 0)
    by (simpl; discriminate).
  assert (Hb : baseRTT (inet_csk_ca sk_overloaded) <> 0)
    by (simpl; discriminate).
  split; [exact (conj Hdue (conj Hcnt (conj Hm Hb))) |].
  destruct (decision_threshold_from_host (H := linux_host) default_params
              sk_overloaded 600 1 (proj1 Hdue) (proj2 Hdue) Hcnt Hm Hb)
    as [skd [sk' [_ [Hrun [_ [_ [Hth [_ [_ [_ Hsaved]]]]]]]]]].
  exists sk'. split; [exact Hrun |]. split; [| exact Hsaved].
  rewrite Hth. vm_compute. reflexivity.
Defined.

Lemma reachable_divisors_nonzero_witness :
  let sk := tcp_qvegas_pkts_acked
              (tcp_qvegas_init (H := linux_host)
                 (mk_sock (tp_open 1000 10 64 1000)
                    (mk_qvegas 0 0 0 0 0 0 0 0 0)))
              (mk_ack_sample 1 0 10) in
  reachable (H := linux_host) sk /\
  baseRTT (inet_csk_ca sk) = 1 /\
  1 <= baseRTT (inet_csk_ca sk) /\ 1 <= minRTT (inet_csk_ca sk).
Proof.
  cbv zeta.
  assert (Hr : reachable (H := linux_host)
                 (tcp_qvegas_pkts_acked
                    (tcp_qvegas_init (H := linux_host)
                       (mk_sock (tp_open 1000 10 64 1000)
                          (mk_qvegas 0 0 0 0 0 0 0 0 0)))
                    (mk_ack_sample 1 0 10))).
  { apply reach_pkts_acked.
    - apply reach_init.
    - unfold is_s32. simpl. lia. }
  split; [exact Hr |]. split; [vm_compute; reflexivity |].
  destruct (reachable_divisors_nonzero (H := linux_host) _ Hr)
    as [Hb [Hm _]].
  split; [exact Hb | exact Hm].
Defined.

(** C10 as stated fails on [sk_lossy]: outside slow start with
    [diff = 10 > beta] the helper runs on window 19 with a packet marked
    lost, stores 7 in [lost_cwnd] and returns 18.  When the call ends
    [lost_cwnd] is 19, the final window, so the helper's write has not
    lasted; and the threshold left behind is 18, the helper's value as
    the host function passes it on, where the same state without the
    helper's store gives 19. *)
Lemma helper_effects_as_stated_fail :
  let run := tcp_qvegas_cong_avoid (H := linux_host) default_params in
  let sk0 := qvegas_restore sk_lossy in
  let skw := with_tp (set_snd_cwnd 19) sk0 in
  cycle_due (H := linux_host) sk_lossy 600 /\
  2 < cntRTT (inet_csk_ca sk_lossy) /\
  Linux.tcp_in_slow_start (tcp_sk sk0) = false /\
  qvegas_diff sk0 = 10 /\ u32 (beta default_params) < 10 /\
  u32 (snd_cwnd (tcp_sk sk0) - 1) = 19 /\
  lost_cwnd (inet_csk_ca (fst (tcp_qvegas_ssthresh skw))) = 7 /\
  snd (tcp_qvegas_ssthresh skw) = 18 /\
  saved_after (run sk_lossy 600 1) = Some 19 /\
  19 <> 7 /\
  ssthresh_after (run sk_lossy 600 1) = Some 18 /\
  Linux.tcp_current_ssthresh (tcp_sk skw) = 19.
Proof.
  cbv zeta.
  split; [split; [simpl; discriminate | vm_compute; reflexivity] |].
  split; [simpl; lia |].
  repeat split; try (vm_compute; reflexivity); lia.
Qed.

(** * Further properties of the hooks *)

(** ** Runs of the sampler *)

Lemma u16_range : forall x, is_u16 (u16 x).
Proof. intro x. unfold is_u16, u16. apply Z.mod_pos_bound. lia. Qed.

Lemma u16_add_l : forall a b, u16 (u16 a + b) = u16 (a + b).
Proof. intros a b. unfold u16. apply Zplus_mod_idemp_l. Qed.

Lemma u32_add_l : forall a b, u32 (u32 a + b) = u32 (a + b).
Proof. intros a b. unfold u32. apply Zplus_mod_idemp_l. Qed.

Lemma u32_add_r : forall a b, u32 (a + u32 b) = u32 (a + b).
Proof. intros a b. unfold u32. apply Zplus_mod_idemp_r. Qed.

(** What a taken sample does, whatever its size. *)
Lemma pkts_acked_taken : forall sk s,
  sample_taken s = true ->
  let q := inet_csk_ca sk in
  tcp_qvegas_pkts_acked sk s =
    mk_sock (tcp_sk sk)
      (mk_qvegas (beg_snd_nxt q) (beg_snd_una q) (beg_snd_cwnd q)
         (lost_cwnd q) (reno_inc q) (doing_qvegas_now q)
         (u16 (cntRTT q + 1)) (Z.min (minRTT q) (vrtt_of s))
         (Z.min (baseRTT q) (vrtt_of s))).
Proof.
  intros sk s Ht q. unfold sample_taken in Ht. apply negb_true_iff in Ht.
  unfold tcp_qvegas_pkts_acked. rewrite Ht. fold (vrtt_of s). fold q.
  destruct (vrtt_of s <? baseRTT q) eqn:Ebase.
  - apply Z.ltb_lt in Ebase.
    unfold with_ca, set_baseRTT, set_minRTT, set_cntRTT. simpl.
    rewrite (Z.min_r (baseRTT q) (vrtt_of s)) by lia. reflexivity.
  - apply Z.ltb_ge in Ebase.
    unfold with_ca, set_baseRTT, set_minRTT, set_cntRTT. simpl.
    rewrite (Z.min_l (baseRTT q) (vrtt_of s)) by lia. reflexivity.
Qed.

Lemma pkts_acked_dropped : forall sk s,
  sample_taken s = false -> tcp_qvegas_pkts_acked sk s = sk.
Proof.
  intros sk s Ht. unfold sample_taken in Ht. apply negb_false_iff in Ht.
  unfold tcp_qvegas_pkts_acked. rewrite Ht. reflexivity.
Qed.

Lemma pkts_acked_swap : forall sk a b,
  tcp_qvegas_pkts_acked (tcp_qvegas_pkts_acked sk a) b =
  tcp_qvegas_pkts_acked (tcp_qvegas_pkts_acked sk b) a.
Proof.
  intros sk a b.
  destruct (sample_taken a) eqn:Ea; destruct (sample_taken b) eqn:Eb.
  - rewrite (pkts_acked_taken sk a Ea), (pkts_acked_taken sk b Eb).
    rewrite (pkts_acked_taken _ b Eb), (pkts_acked_taken _ a Ea). simpl.
    rewrite !u16_add_l.
    f_equal. f_equal; lia.
  - rewrite (pkts_acked_dropped sk b Eb). rewrite (pkts_acked_dropped _ b Eb).
    reflexivity.
  - rewrite (pkts_acked_dropped sk a Ea). rewrite (pkts_acked_dropped _ a Ea).
    reflexivity.
  - rewrite (pkts_acked_dropped sk a Ea), (pkts_acked_dropped sk b Eb).
    rewrite (pkts_acked_dropped sk a Ea). reflexivity.
Qed.

(** X1: the socket a run of the sampler leaves behind does not depend on
    the order in which the samples arrive. *)
Theorem pkts_acked_all_order : forall l l' sk,
  Permutation l l' -> pkts_acked_all sk l = pkts_acked_all sk l'.
Proof.
  intros l l' sk Hp. revert sk.
  induction Hp as [| x l l' Hp IH | x y l | l l' l'' Hp1 IH1 Hp2 IH2];
    intro sk; simpl.
  - reflexivity.
  - apply IH.
  - rewrite pkts_acked_swap. reflexivity.
  - rewrite IH1. apply IH2.
Qed.

Lemma pkts_acked_all_order_witness :
  let sk := mk_sock (tp_open 1000 20 30 100) (qv_active 20 0 0x7fffffff 9000) in
  let a := mk_ack_sample 1 12000 20 in
  let b := mk_ack_sample 1 (-1) 20 in
  let c := mk_ack_sample 1 7000 20 in
  Permutation (a :: b :: c :: nil) (c :: a :: b :: nil) /\
  pkts_acked_all sk (a :: b :: c :: nil) = pkts_acked_all sk (c :: a :: b :: nil) /\
  inet_csk_ca (pkts_acked_all sk (c :: a :: b :: nil)) = qv_active 20 2 7001 7001.
Proof.
  cbv zeta.
  assert (Hp : Permutation
                 (mk_ack_sample 1 12000 20 :: mk_ack_sample 1 (-1) 20
                  :: mk_ack_sample 1 7000 20 :: nil)
                 (mk_ack_sample 1 7000 20 :: mk_ack_sample 1 12000 20
                  :: mk_ack_sample 1 (-1) 20 :: nil)).
  { apply Permutation_sym.
    apply (Permutation_cons_app
             (mk_ack_sample 1 12000 20 :: mk_ack_sample 1 (-1) 20 :: nil) nil).
    rewrite app_nil_r. apply Permutation_refl. }
  split; [exact Hp |]. split.
  - apply pkts_acked_all_order. exact Hp.
  - vm_compute. reflexivity.
Defined.

Lemma fold_min_push : forall l m v,
  fold_right Z.min (Z.min m v) l = Z.min v (fold_right Z.min m l).
Proof.
  induction l as [| x l IH]; intros m v; simpl.
  - apply Z.min_comm.
  - rewrite IH. lia.
Qed.

(** The closed form of a run: the taken samples are counted in 16 bits and
    both minima are lowered to the least [vrtt]. *)
Lemma pkts_acked_all_eq : forall samples sk,
  is_u16 (cntRTT (inet_csk_ca sk)) ->
  let q := inet_csk_ca sk in
  let vs := taken_vrtts samples in
  pkts_acked_all sk samples =
    mk_sock (tcp_sk sk)
      (mk_qvegas (beg_snd_nxt q) (beg_snd_una q) (beg_snd_cwnd q)
         (lost_cwnd q) (reno_inc q) (doing_qvegas_now q)
         (u16 (cntRTT q + Z.of_nat (length vs)))
         (fold_right Z.min (minRTT q) vs)
         (fold_right Z.min (baseRTT q) vs)).
Proof.
  induction samples as [| s rest IH]; intros sk Hc q vs.
  - subst vs. simpl. rewrite Z.add_0_r, u16_small by exact Hc.
    subst q. destruct sk as [tp q]. destruct q. reflexivity.
  - simpl pkts_acked_all. subst vs. unfold taken_vrtts. simpl filter.
    destruct (sample_taken s) eqn:Et.
    + rewrite IH
        by (rewrite (pkts_acked_taken sk s Et); simpl; apply u16_range).
      rewrite (pkts_acked_taken sk s Et). fold q. simpl.
      fold (taken_vrtts rest).
      rewrite !fold_min_push. rewrite u16_add_l.
      f_equal. f_equal. f_equal. lia.
    + rewrite (pkts_acked_dropped sk s Et). apply IH. exact Hc.
Qed.

(** X2: a run of the sampler over any list of samples leaves the transport
    state alone, adds the number of non-negative samples to [cntRTT] in 16
    bits, and lowers [minRTT] and [baseRTT] to their minimum with the
    least [rtt_us + 1] among those samples; negative samples count for
    nothing.  After 65536 more taken samples the counter is back where it
    was. *)
Theorem pkts_acked_all_closed_form : forall samples sk,
  is_u16 (cntRTT (inet_csk_ca sk)) ->
  let q := inet_csk_ca sk in
  let vs := taken_vrtts samples in
  pkts_acked_all sk samples =
    mk_sock (tcp_sk sk)
      (mk_qvegas (beg_snd_nxt q) (beg_snd_una q) (beg_snd_cwnd q)
         (lost_cwnd q) (reno_inc q) (doing_qvegas_now q)
         (u16 (cntRTT q + Z.of_nat (length vs)))
         (fold_right Z.min (minRTT q) vs)
         (fold_right Z.min (baseRTT q) vs)) /\
  (forall v, In v vs ->
     baseRTT (inet_csk_ca (pkts_acked_all sk samples)) <= v /\
     minRTT (inet_csk_ca (pkts_acked_all sk samples)) <= v) /\
  (Z.of_nat (length vs) = 65536 ->
   cntRTT (inet_csk_ca (pkts_acked_all sk samples)) = cntRTT q).
Proof.
  intros samples sk Hc q vs.
  pose proof (pkts_acked_all_eq samples sk Hc) as Heq. cbv zeta in Heq.
  fold q in Heq. fold vs in Heq.
  split; [exact Heq |]. split.
  - intros v Hin. rewrite Heq. simpl.
    assert (Hmin : forall m, fold_right Z.min m vs <= v).
    { intro m. clear Heq. induction vs as [| x xs IHx]; simpl.
      - destruct Hin.
      - destruct Hin as [Hx | Hx]; [subst x; lia |].
        specialize (IHx Hx). lia. }
    split; apply Hmin.
  - intro Hn. rewrite Heq. simpl. rewrite Hn.
    unfold u16. change (2 ^ 16) with 65536.
    rewrite <- (Z.mul_1_l 65536) at 1. rewrite Z.mod_add by lia.
    apply Z.mod_small. exact Hc.
Qed.

Lemma pkts_acked_all_closed_form_witness :
  let sk := mk_sock (tp_open 1000 20 30 100) (qv_active 20 0 0x7fffffff 9000) in
  let l := mk_ack_sample 1 12000 20 :: mk_ack_sample 1 (-1) 20
           :: mk_ack_sample 1 7000 20 :: nil in
  is_u16 (cntRTT (inet_csk_ca sk)) /\
  pkts_acked_all sk l =
    mk_sock (tp_open 1000 20 30 100) (qv_active 20 2 7001 7001).
Proof.
  cbv zeta.
  assert (Hc : is_u16 (cntRTT (inet_csk_ca
                 (mk_sock (tp_open 1000 20 30 100)
                    (qv_active 20 0 0x7fffffff 9000)))))
    by (unfold is_u16; simpl; lia).
  split; [exact Hc |].
  destruct (pkts_acked_all_closed_form
              (mk_ack_sample 1 12000 20 :: mk_ack_sample 1 (-1) 20
               :: mk_ack_sample 1 7000 20 :: nil) _ Hc) as [Heq _].
  rewrite Heq. vm_compute. reflexivity.
Defined.

(** ** Mode controller and undo *)

Section ModeControllerMore.

Context {H : Host}.

(** X3: enabling is idempotent and absorbs a preceding disable; a full
    reset is idempotent and absorbs a preceding disable; the reaction to
    [TCP_CA_Open] absorbs whatever state notification came before it. *)
Theorem mode_controller_absorbs : forall sk ca_state,
  qvegas_enable (qvegas_enable sk) = qvegas_enable sk /\
  qvegas_enable (qvegas_disable sk) = qvegas_enable sk /\
  tcp_qvegas_init (tcp_qvegas_init sk) = tcp_qvegas_init sk /\
  tcp_qvegas_init (qvegas_disable sk) = tcp_qvegas_init sk /\
  tcp_qvegas_state (tcp_qvegas_state sk ca_state) TCP_CA_Open =
    tcp_qvegas_state sk TCP_CA_Open.
Proof.
  intros sk ca_state.
  split; [reflexivity |]. split; [reflexivity |].
  split; [| split].
  - unfold tcp_qvegas_init at 1.
    destruct (tcp_qvegas_init_rtts sk) as [Hb _]. rewrite Hb. simpl.
    unfold tcp_qvegas_init.
    destruct (baseRTT (inet_csk_ca sk) =? 0); reflexivity.
  - unfold tcp_qvegas_init. simpl.
    destruct (baseRTT (inet_csk_ca sk) =? 0); reflexivity.
  - unfold tcp_qvegas_state. rewrite Z.eqb_refl.
    destruct (ca_state =? TCP_CA_Open); reflexivity.
Qed.

(** X4: the window offered for an undo is at least 2, is the window the
    reaction to [TCP_CA_Open] installs, and is changed neither by a state
    notification nor by the sampler. *)
Theorem qvegas_undo_cwnd_spec : forall sk ca_state sample,
  2 <= qvegas_undo_cwnd sk /\
  snd_cwnd (tcp_sk (tcp_qvegas_state sk TCP_CA_Open)) = qvegas_undo_cwnd sk /\
  qvegas_undo_cwnd (tcp_qvegas_state sk ca_state) = qvegas_undo_cwnd sk /\
  qvegas_undo_cwnd (tcp_qvegas_pkts_acked sk sample) = qvegas_undo_cwnd sk.
Proof.
  intros sk ca_state sample. unfold qvegas_undo_cwnd.
  split; [lia |]. split; [| split].
  - unfold tcp_qvegas_state. rewrite Z.eqb_refl. reflexivity.
  - unfold tcp_qvegas_state.
    destruct (ca_state =? TCP_CA_Open); reflexivity.
  - destruct (sample_taken sample) eqn:Et.
    + rewrite (pkts_acked_taken sk sample Et). reflexivity.
    + rewrite (pkts_acked_dropped sk sample Et). reflexivity.
Qed.

(** X5: once a full reset has run, [baseRTT] is never 0 again, so every
    later full reset keeps [lost_cwnd] and only unsets [baseRTT] and opens
    a fresh window; [TCP_INIT_CWND] is stored on a private area whose
    [baseRTT] is 0 and on no other. *)
Theorem reachable_init_keeps_lost_cwnd : forall sk,
  reachable sk ->
  tcp_qvegas_init sk = qvegas_enable (with_ca (set_baseRTT 0x7fffffff) sk) /\
  lost_cwnd (inet_csk_ca (tcp_qvegas_init sk)) = lost_cwnd (inet_csk_ca sk) /\
  (forall sk0,
     lost_cwnd (inet_csk_ca (tcp_qvegas_init sk0)) =
     if baseRTT (inet_csk_ca sk0) =? 0 then TCP_INIT_CWND
     else lost_cwnd (inet_csk_ca sk0)).
Proof.
  intros sk Hr. destruct (reachable_minima sk Hr) as [Hb _].
  assert (Hnz : (baseRTT (inet_csk_ca sk) =? 0) = false)
    by (apply Z.eqb_neq; lia).
  split; [| split].
  - unfold tcp_qvegas_init. rewrite Hnz. reflexivity.
  - unfold tcp_qvegas_init. rewrite Hnz. reflexivity.
  - intro sk0. unfold tcp_qvegas_init.
    destruct (baseRTT (inet_csk_ca sk0) =? 0); reflexivity.
Qed.

(** In every reachable state the two minima are ordered and below the
    unset value. *)
Lemma reachable_rtt_bounds : forall sk,
  reachable sk ->
  baseRTT (inet_csk_ca sk) <= minRTT (inet_csk_ca sk) /\
  minRTT (inet_csk_ca sk) <= 0x7fffffff.
Proof.
  intros sk Hr. induction Hr as
    [sk | sk sample Hr IH Hs | p sk ack acked sk' Hr IH Hrun
     | sk ca_state Hr IH | sk event Hr IH | sk tp Hr IH].
  - destruct (tcp_qvegas_init_rtts sk) as [Hb Hm]. rewrite Hb, Hm. lia.
  - destruct (sample_taken sample) eqn:Et.
    + rewrite (pkts_acked_taken sk sample Et). simpl. lia.
    + rewrite (pkts_acked_dropped sk sample Et). exact IH.
  - destruct (cong_avoid_rtts p sk ack acked sk' Hrun) as [Hb [Hm | Hm]];
      rewrite Hb, Hm; lia.
  - unfold tcp_qvegas_state. destruct (ca_state =? TCP_CA_Open); simpl; lia.
  - unfold tcp_qvegas_cwnd_event. destruct (is_restart_event event).
    + destruct (tcp_qvegas_init_rtts sk) as [Hb Hm]. rewrite Hb, Hm. lia.
    + exact IH.
  - exact IH.
Qed.

(** X6: in every state reachable from a full reset
    [1 <= baseRTT <= minRTT <= 0x7fffffff]; so the subtraction
    [rtt - baseRTT] of line 261 never wraps, and the target window of
    lines 254-255 is never above the saved window it is computed from. *)
Theorem reachable_rtt_order : forall sk,
  reachable sk ->
  let q := inet_csk_ca sk in
  1 <= baseRTT q <= minRTT q /\ minRTT q <= 0x7fffffff /\
  u32 (minRTT q - baseRTT q) = minRTT q - baseRTT q /\
  (is_u32 (lost_cwnd q) ->
   qvegas_target (qvegas_restore sk) = lost_cwnd q * baseRTT q / minRTT q /\
   0 <= qvegas_target (qvegas_restore sk) <= lost_cwnd q).
Proof.
  intros sk Hr q. destruct (reachable_minima sk Hr) as [Hb Hm].
  destruct (reachable_rtt_bounds sk Hr) as [Hle Hmax].
  fold q in Hb, Hm, Hle, Hmax.
  split; [lia |]. split; [exact Hmax |]. split.
  - apply u32_small. unfold is_u32. lia.
  - intro Hl. unfold is_u32 in Hl.
    assert (Ht : qvegas_target (qvegas_restore sk) =
                 lost_cwnd q * baseRTT q / minRTT q).
    { unfold qvegas_target. rewrite qvegas_restore_tp, qvegas_restore_ca.
      simpl. fold q. rewrite u64_mul_u32; [reflexivity | exact Hl |].
      unfold is_u32. lia. }
    split; [exact Ht |]. rewrite Ht. split.
    + apply Z.div_pos; [apply Z.mul_nonneg_nonneg; lia | lia].
    + apply Z.div_le_upper_bound; [lia |].
      rewrite Z.mul_comm. apply Z.mul_le_mono_nonneg_r; lia.
Qed.

End ModeControllerMore.

Lemma reachable_init_keeps_lost_cwnd_witness :
  let sk := tcp_qvegas_pkts_acked
              (tcp_qvegas_init (H := linux_host)
                 (mk_sock (tp_open 1000 10 64 1000)
                    (mk_qvegas 0 0 0 0 0 0 0 0 0)))
              (mk_ack_sample 1 9999 10) in
  reachable (H := linux_host) sk /\
  lost_cwnd (inet_csk_ca sk) = 10 /\
  lost_cwnd (inet_csk_ca (tcp_qvegas_init (H := linux_host) sk)) = 10.
Proof.
  cbv zeta.
  assert (Hr : reachable (H := linux_host)
                 (tcp_qvegas_pkts_acked
                    (tcp_qvegas_init (H := linux_host)
                       (mk_sock (tp_open 1000 10 64 1000)
                          (mk_qvegas 0 0 0 0 0 0 0 0 0)))
                    (mk_ack_sample 1 9999 10))).
  { apply reach_pkts_acked.
    - apply reach_init.
    - unfold is_s32. simpl. lia. }
  split; [exact Hr |]. split; [vm_compute; reflexivity |].
  destruct (reachable_init_keeps_lost_cwnd (H := linux_host) _ Hr)
    as [_ [Hkeep _]].
  rewrite Hkeep. vm_compute. reflexivity.
Defined.

Lemma reachable_rtt_order_witness :
  let sk := tcp_qvegas_pkts_acked
              (tcp_qvegas_init (H := linux_host)
                 (mk_sock (tp_open 1000 10 64 1000)
                    (mk_qvegas 0 0 0 0 0 0 0 0 0)))
              (mk_ack_sample 1 9999 10) in
  reachable (H := linux_host) sk /\
  baseRTT (inet_csk_ca sk) <= minRTT (inet_csk_ca sk) /\
  qvegas_target (qvegas_restore sk) <= lost_cwnd (inet_csk_ca sk).
Proof.
  cbv zeta.
  assert (Hr : reachable (H := linux_host)
                 (tcp_qvegas_pkts_acked
                    (tcp_qvegas_init (H := linux_host)
                       (mk_sock (tp_open 1000 10 64 1000)
                          (mk_qvegas 0 0 0 0 0 0 0 0 0)))
                    (mk_ack_sample 1 9999 10))).
  { apply reach_pkts_acked.
    - apply reach_init.
    - unfold is_s32. simpl. lia. }
  split; [exact Hr |].
  destruct (reachable_rtt_order (H := linux_host) _ Hr)
    as [Hord [_ [_ Htarget]]].
  split; [lia |].
  apply Htarget. vm_compute. split; congruence.
Defined.

(** ** Decision engine: faults, frame and runs *)

Section EngineMore.

Context {H : Host}.

(** X7: the decision engine faults exactly when a delay-based decision is
    due (active, [ack] past [beg_snd_nxt], more than two samples) and
    [minRTT] or [baseRTT] is 0; in every other case it returns. *)
Theorem cong_avoid_faults_iff : forall p sk ack acked,
  tcp_qvegas_cong_avoid p sk ack acked = None <->
  doing_qvegas_now (inet_csk_ca sk) <> 0 /\
  after ack (beg_snd_nxt (inet_csk_ca sk)) = true /\
  2 < cntRTT (inet_csk_ca sk) /\
  (minRTT (inet_csk_ca sk) = 0 \/ baseRTT (inet_csk_ca sk) = 0).
Proof.
  intros p sk ack acked. split.
  - intro Hn.
    destruct (Z.eq_dec (doing_qvegas_now (inet_csk_ca sk)) 0) as [Hoff | Hon];
      [rewrite (cong_avoid_disabled p sk ack acked Hoff) in Hn; discriminate |].
    destruct (after ack (beg_snd_nxt (inet_csk_ca sk))) eqn:Hafter.
    + destruct (Z_le_gt_dec (cntRTT (inet_csk_ca sk)) 2) as [Hfew | Hmany];
        [rewrite (cong_avoid_few_samples p sk ack acked Hon Hafter Hfew) in Hn;
         discriminate |].
      assert (Hcnt : 2 < cntRTT (inet_csk_ca sk)) by lia.
      split; [exact Hon |]. split; [reflexivity |]. split; [exact Hcnt |].
      destruct (Z.eq_dec (minRTT (inet_csk_ca sk)) 0) as [Hm | Hm];
        [left; exact Hm |].
      destruct (Z.eq_dec (baseRTT (inet_csk_ca sk)) 0) as [Hb | Hb];
        [right; exact Hb |].
      destruct (cong_avoid_delay_based p sk ack acked Hon Hafter Hcnt Hm Hb)
        as [_ Hc].
      rewrite Hc in Hn. discriminate.
    + unfold tcp_qvegas_cong_avoid in Hn.
      apply Z.eqb_neq in Hon. rewrite Hon, Hafter in Hn.
      destruct (tcp_in_slow_start (tcp_sk sk)); discriminate.
  - intros [Hon [Hafter [Hcnt Hz]]].
    rewrite (cong_avoid_enough_samples p sk ack acked Hon Hafter Hcnt).
    rewrite qvegas_decision_fault; [reflexivity |].
    rewrite qvegas_restore_ca. simpl. exact Hz.
Qed.

Lemma pkts_acked_all_baseRTT_zero : forall samples sk,
  baseRTT (inet_csk_ca sk) = 0 ->
  baseRTT (inet_csk_ca (pkts_acked_all sk samples)) = 0.
Proof.
  induction samples as [| s rest IH]; intros sk Hz; simpl.
  - exact Hz.
  - apply IH. destruct (sample_taken s) eqn:Et.
    + rewrite (pkts_acked_taken sk s Et). simpl. rewrite Hz.
      pose proof (u32_range (rtt_us s + 1)) as Hr. unfold is_u32 in Hr.
      unfold vrtt_of. lia.
    + rewrite (pkts_acked_dropped sk s Et). exact Hz.
Qed.

(** X8: a [baseRTT] of 0, as on a private area that no full reset has
    touched, survives every run of the sampler, since no [vrtt] is below
    it; if the algorithm is then active with more than two samples at an
    RTT boundary, the decision engine divides by zero. *)
Theorem baseRTT_zero_sticks : forall p sk samples ack acked,
  baseRTT (inet_csk_ca sk) = 0 ->
  let sk' := pkts_acked_all sk samples in
  baseRTT (inet_csk_ca sk') = 0 /\
  (doing_qvegas_now (inet_csk_ca sk') <> 0 ->
   after ack (beg_snd_nxt (inet_csk_ca sk')) = true ->
   2 < cntRTT (inet_csk_ca sk') ->
   tcp_qvegas_cong_avoid p sk' ack acked = None).
Proof.
  intros p sk samples ack acked Hz sk'.
  assert (Hz' : baseRTT (inet_csk_ca sk') = 0)
    by (apply pkts_acked_all_baseRTT_zero; exact Hz).
  split; [exact Hz' |].
  intros Hon Hafter Hcnt.
  rewrite (cong_avoid_enough_samples p sk' ack acked Hon Hafter Hcnt).
  rewrite qvegas_decision_fault; [reflexivity |].
  rewrite qvegas_restore_ca. simpl. right. exact Hz'.
Qed.

Lemma qvegas_decision_ca : forall p sk acked skd,
  qvegas_decision p sk acked = Some skd ->
  same_but_lost_cwnd (inet_csk_ca sk) (inet_csk_ca skd).
Proof.
  intros p sk acked skd Hd.
  destruct (Z.eq_dec (minRTT (inet_csk_ca sk)) 0) as [Hm | Hm];
    [rewrite qvegas_decision_fault in Hd by (left; exact Hm); discriminate |].
  destruct (Z.eq_dec (baseRTT (inet_csk_ca sk)) 0) as [Hb | Hb];
    [rewrite qvegas_decision_fault in Hd by (right; exact Hb); discriminate |].
  rewrite (qvegas_decision_ok p sk acked Hm Hb) in Hd.
  cbv zeta in Hd. injection Hd as Hd. subst skd.
  cbn [with_tp inet_csk_ca]. rewrite qvegas_clamp_ca.
  apply qvegas_adjust_ca.
Qed.

(** The private area at the end of a cycle, whichever branch ran. *)
Lemma cong_avoid_boundary_ca : forall p sk ack acked sk',
  doing_qvegas_now (inet_csk_ca sk) <> 0 ->
  after ack (beg_snd_nxt (inet_csk_ca sk)) = true ->
  tcp_qvegas_cong_avoid p sk ack acked = Some sk' ->
  let q := inet_csk_ca sk in
  inet_csk_ca sk' =
    mk_qvegas (snd_nxt (tcp_sk sk)) (beg_snd_una q) (beg_snd_cwnd q)
      (snd_cwnd (tcp_sk sk')) (reno_inc (inet_csk_ca sk'))
      (doing_qvegas_now q) 0 0x7fffffff (baseRTT q).
Proof.
  intros p sk ack acked sk' Hon Hafter Hrun q.
  destruct (Z_le_gt_dec (cntRTT (inet_csk_ca sk)) 2) as [Hfew | Hmany].
  - rewrite (cong_avoid_few_samples p sk ack acked Hon Hafter Hfew) in Hrun.
    injection Hrun as Hrun. subst sk'. reflexivity.
  - assert (Hcnt : 2 < cntRTT (inet_csk_ca sk)) by lia.
    rewrite (cong_avoid_enough_samples p sk ack acked Hon Hafter Hcnt) in Hrun.
    destruct (qvegas_decision p (qvegas_restore sk) acked) as [skd |] eqn:Hd;
      [| discriminate].
    simpl in Hrun. injection Hrun as Hrun. subst sk'.
    pose proof (qvegas_decision_ca p _ acked skd Hd) as Hsame.
    unfold same_but_lost_cwnd in Hsame. rewrite qvegas_restore_ca in Hsame.
    cbn [qvegas_wipe with_ca inet_csk_ca tcp_sk]. rewrite Hsame. reflexivity.
Qed.

(** X9: what the decision engine never does.  Whenever it returns it has
    left [doing_qvegas_now], [baseRTT], [beg_snd_una] and [beg_snd_cwnd]
    as they were.  Away from an RTT boundary it writes at most [reno_inc]
    in the private area, and when active, away from a boundary and outside
    slow start it leaves the whole socket as it was.  At a boundary it
    ends with [cntRTT = 0], [minRTT] unset, [beg_snd_nxt] at the [snd_nxt]
    it found and [lost_cwnd] at the window it wrote, so what an undo then
    offers is that window, or 2 if it is smaller. *)
Theorem cong_avoid_frame : forall p sk ack acked sk',
  tcp_qvegas_cong_avoid p sk ack acked = Some sk' ->
  let q := inet_csk_ca sk in
  let q' := inet_csk_ca sk' in
  (doing_qvegas_now q' = doing_qvegas_now q /\ baseRTT q' = baseRTT q /\
   beg_snd_una q' = beg_snd_una q /\ beg_snd_cwnd q' = beg_snd_cwnd q) /\
  (doing_qvegas_now q = 0 \/ after ack (beg_snd_nxt q) = false ->
   q' = set_reno_inc (reno_inc q') q) /\
  (doing_qvegas_now q <> 0 -> after ack (beg_snd_nxt q) = false ->
   tcp_in_slow_start (tcp_sk sk) = false -> sk' = sk) /\
  (doing_qvegas_now q <> 0 -> after ack (beg_snd_nxt q) = true ->
   cntRTT q' = 0 /\ minRTT q' = 0x7fffffff /\
   beg_snd_nxt q' = snd_nxt (tcp_sk sk) /\
   lost_cwnd q' = snd_cwnd (tcp_sk sk') /\
   qvegas_undo_cwnd sk' = Z.max (snd_cwnd (tcp_sk sk')) 2).
Proof.
  intros p sk ack acked sk' Hrun q q'.
  assert (Haway : doing_qvegas_now q = 0 \/ after ack (beg_snd_nxt q) = false ->
                  q' = set_reno_inc (reno_inc q') q).
  { intros Hcase. subst q q'. unfold tcp_qvegas_cong_avoid in Hrun.
    destruct (doing_qvegas_now (inet_csk_ca sk) =? 0) eqn:Eon.
    - injection Hrun as Hrun. subst sk'. simpl.
      destruct (inet_csk_ca sk). reflexivity.
    - destruct Hcase as [Hoff | Hnot];
        [apply Z.eqb_neq in Eon; contradiction |].
      rewrite Hnot in Hrun.
      destruct (tcp_in_slow_start (tcp_sk sk));
        injection Hrun as Hrun; subst sk'; simpl;
        destruct (inet_csk_ca sk); reflexivity. }
  assert (Hdue : doing_qvegas_now q <> 0 -> after ack (beg_snd_nxt q) = true ->
                 q' = mk_qvegas (snd_nxt (tcp_sk sk)) (beg_snd_una q)
                        (beg_snd_cwnd q) (snd_cwnd (tcp_sk sk'))
                        (reno_inc q') (doing_qvegas_now q) 0 0x7fffffff
                        (baseRTT q)).
  { intros Hon Hafter.
    exact (cong_avoid_boundary_ca p sk ack acked sk' Hon Hafter Hrun). }
  split; [| split; [exact Haway | split]].
  - destruct (Z.eq_dec (doing_qvegas_now q) 0) as [Hoff | Hon].
    + rewrite (Haway (or_introl Hoff)). simpl. repeat split.
    + destruct (after ack (beg_snd_nxt q)) eqn:Hafter.
      * rewrite (Hdue Hon eq_refl). simpl. repeat split.
      * rewrite (Haway (or_intror eq_refl)). simpl. repeat split.
  - intros Hon Hnot Hss. subst q. unfold tcp_qvegas_cong_avoid in Hrun.
    apply Z.eqb_neq in Hon. rewrite Hon, Hnot, Hss in Hrun.
    injection Hrun as Hrun. symmetry. exact Hrun.
  - intros Hon Hafter. unfold qvegas_undo_cwnd. fold q'.
    rewrite (Hdue Hon Hafter). simpl. repeat split.
Qed.

Lemma set_reno_inc_twice : forall a b q,
  set_reno_inc a (set_reno_inc b q) = set_reno_inc a q.
Proof. intros a b q. reflexivity. Qed.

(** X10: while the algorithm is disabled, a run of the decision engine
    over any list of acknowledgments never faults, stays disabled, leaves
    the transport state exactly as the fallback alone would over the same
    acknowledgments, and has added to [reno_inc], in 32 bits, the whole
    change of the window. *)
Theorem disabled_run_is_fallback : forall acks p sk,
  doing_qvegas_now (inet_csk_ca sk) = 0 ->
  is_u32 (reno_inc (inet_csk_ca sk)) ->
  let tp' := reno_all (tcp_sk sk) acks in
  cong_avoid_all p sk acks =
  Some (mk_sock tp'
          (set_reno_inc
             (u32 (reno_inc (inet_csk_ca sk)
                   + (snd_cwnd tp' - snd_cwnd (tcp_sk sk))))
             (inet_csk_ca sk))).
Proof.
  induction acks as [| a rest IH]; intros p sk Hoff Hr tp'.
  - subst tp'. simpl. rewrite Z.sub_diag, Z.add_0_r, u32_small by exact Hr.
    destruct sk as [tp q]. destruct q. reflexivity.
  - simpl cong_avoid_all.
    rewrite (cong_avoid_disabled p sk (fst a) (snd a) Hoff). simpl bind.
    rewrite IH; [| exact Hoff | simpl; apply u32_range].
    subst tp'. simpl. rewrite set_reno_inc_twice.
    rewrite u32_add_r, u32_add_l.
    do 4 f_equal. lia.
Qed.

End EngineMore.

(** ** Decision engine: fresh windows and negative parameters *)

Section FreshWindow.

Context {H : Host}.

(** After a run of the sampler on a window that began with [cntRTT = 0],
    the next RTT boundary takes the fallback when at most two samples were
    taken, and the delay-based decision when three or more were (short of
    the 16-bit wrap). *)
Lemma fresh_window_branch : forall p sk samples ack acked,
  doing_qvegas_now (inet_csk_ca sk) <> 0 ->
  cntRTT (inet_csk_ca sk) = 0 ->
  after ack (beg_snd_nxt (inet_csk_ca sk)) = true ->
  let sk2 := pkts_acked_all sk samples in
  let n := Z.of_nat (length (taken_vrtts samples)) in
  (n <= 2 ->
   tcp_qvegas_cong_avoid p sk2 ack acked =
   Some (qvegas_wipe (reno_step (qvegas_restore sk2) ack acked))) /\
  (3 <= n < 65536 ->
   tcp_qvegas_cong_avoid p sk2 ack acked =
   (skd <- qvegas_decision p (qvegas_restore sk2) acked ;;
    Some (qvegas_wipe skd))).
Proof.
  intros p sk samples ack acked Hon Hcnt Hafter sk2 n.
  assert (Hc : is_u16 (cntRTT (inet_csk_ca sk)))
    by (rewrite Hcnt; unfold is_u16; lia).
  pose proof (pkts_acked_all_eq samples sk Hc) as Heq. cbv zeta in Heq.
  fold sk2 in Heq. fold n in Heq. rewrite Hcnt in Heq. simpl in Heq.
  assert (Hon2 : doing_qvegas_now (inet_csk_ca sk2) <> 0)
    by (rewrite Heq; exact Hon).
  assert (Hafter2 : after ack (beg_snd_nxt (inet_csk_ca sk2)) = true)
    by (rewrite Heq; exact Hafter).
  assert (Hn : cntRTT (inet_csk_ca sk2) = u16 n) by (rewrite Heq; reflexivity).
  assert (H0 : 0 <= n) by (subst n; lia).
  split; intro Hrange.
  - apply cong_avoid_few_samples; [exact Hon2 | exact Hafter2 |].
    rewrite Hn, u16_small by (unfold is_u16; lia). exact Hrange.
  - apply cong_avoid_enough_samples; [exact Hon2 | exact Hafter2 |].
    rewrite Hn, u16_small by (unfold is_u16; lia). lia.
Qed.

(** X11: [CA_EVENT_CWND_RESTART] and [CA_EVENT_TX_START] run a full
    reset and every other event leaves the socket alone; after a restart
    event, a boundary acknowledgment that follows at most two taken
    samples is handled by the fallback on the saved window, with no
    division, whatever the RTT fields held before. *)
Theorem restart_then_few_samples : forall p sk event samples ack acked,
  is_restart_event event = true ->
  Z.of_nat (length (taken_vrtts samples)) <= 2 ->
  after ack (snd_nxt (tcp_sk sk)) = true ->
  let sk1 := tcp_qvegas_cwnd_event sk event in
  let sk2 := pkts_acked_all sk1 samples in
  sk1 = tcp_qvegas_init sk /\
  tcp_qvegas_cong_avoid p sk2 ack acked =
    Some (qvegas_wipe (reno_step (qvegas_restore sk2) ack acked)) /\
  window_after (tcp_qvegas_cong_avoid p sk2 ack acked) =
    Some (snd_cwnd
            (tcp_reno_cong_avoid
               (set_snd_cwnd (lost_cwnd (inet_csk_ca sk1)) (tcp_sk sk))
               ack acked)) /\
  (forall other, is_restart_event other = false ->
                 tcp_qvegas_cwnd_event sk other = sk).
Proof.
  intros p sk event samples ack acked Hev Hn Hafter sk1 sk2.
  assert (H1 : sk1 = tcp_qvegas_init sk)
    by (subst sk1; unfold tcp_qvegas_cwnd_event; rewrite Hev; reflexivity).
  assert (Hon : doing_qvegas_now (inet_csk_ca sk1) <> 0).
  { rewrite H1. unfold tcp_qvegas_init.
    destruct (baseRTT (inet_csk_ca sk) =? 0); simpl; discriminate. }
  assert (Hcnt : cntRTT (inet_csk_ca sk1) = 0).
  { rewrite H1. unfold tcp_qvegas_init.
    destruct (baseRTT (inet_csk_ca sk) =? 0); reflexivity. }
  assert (Hbeg : beg_snd_nxt (inet_csk_ca sk1) = snd_nxt (tcp_sk sk)).
  { rewrite H1. unfold tcp_qvegas_init.
    destruct (baseRTT (inet_csk_ca sk) =? 0); reflexivity. }
  assert (Htp : tcp_sk sk1 = tcp_sk sk).
  { rewrite H1. unfold tcp_qvegas_init.
    destruct (baseRTT (inet_csk_ca sk) =? 0); reflexivity. }
  assert (Hafter1 : after ack (beg_snd_nxt (inet_csk_ca sk1)) = true)
    by (rewrite Hbeg; exact Hafter).
  destruct (fresh_window_branch p sk1 samples ack acked Hon Hcnt Hafter1)
    as [Hfew _].
  fold sk2 in Hfew. specialize (Hfew Hn).
  split; [exact H1 |]. split; [exact Hfew |]. split.
  - rewrite Hfew.
    assert (Hc : is_u16 (cntRTT (inet_csk_ca sk1)))
      by (rewrite Hcnt; unfold is_u16; lia).
    pose proof (pkts_acked_all_eq samples sk1 Hc) as Heq. cbv zeta in Heq.
    fold sk2 in Heq. rewrite Heq. simpl. rewrite Htp. reflexivity.
  - intros other Hother. unfold tcp_qvegas_cwnd_event. rewrite Hother.
    reflexivity.
Qed.

(** X12: a cycle opens a window that needs three samples.  After any
    RTT-boundary cycle, a later boundary acknowledgment runs the fallback
    when at most two samples were taken in between, and the delay-based
    decision when between 3 and 65535 were. *)
Theorem cycle_then_samples : forall p sk ack acked sk1 samples ack' acked',
  doing_qvegas_now (inet_csk_ca sk) <> 0 ->
  after ack (beg_snd_nxt (inet_csk_ca sk)) = true ->
  tcp_qvegas_cong_avoid p sk ack acked = Some sk1 ->
  after ack' (snd_nxt (tcp_sk sk)) = true ->
  let sk2 := pkts_acked_all sk1 samples in
  let n := Z.of_nat (length (taken_vrtts samples)) in
  (n <= 2 ->
   tcp_qvegas_cong_avoid p sk2 ack' acked' =
   Some (qvegas_wipe (reno_step (qvegas_restore sk2) ack' acked'))) /\
  (3 <= n < 65536 ->
   tcp_qvegas_cong_avoid p sk2 ack' acked' =
   (skd <- qvegas_decision p (qvegas_restore sk2) acked' ;;
    Some (qvegas_wipe skd))).
Proof.
  intros p sk ack acked sk1 samples ack' acked' Hon Hafter Hrun Hafter' sk2 n.
  pose proof (cong_avoid_boundary_ca p sk ack acked sk1 Hon Hafter Hrun)
    as Hca. cbv zeta in Hca.
  apply fresh_window_branch.
  - rewrite Hca. exact Hon.
  - rewrite Hca. reflexivity.
  - rewrite Hca. exact Hafter'.
Qed.

Lemma qvegas_diff_below : forall sk,
  2 <= baseRTT (inet_csk_ca sk) -> qvegas_diff sk < 2 ^ 31.
Proof.
  intros sk Hb. unfold qvegas_diff.
  pose proof (u32_range
                (snd_cwnd (tcp_sk sk)
                 * u32 (minRTT (inet_csk_ca sk) - baseRTT (inet_csk_ca sk))))
    as Hr.
  unfold is_u32 in Hr.
  apply Z.div_lt_upper_bound; [lia |].
  assert (2 ^ 32 <= baseRTT (inet_csk_ca sk) * 2 ^ 31) by lia.
  lia.
Qed.

Lemma u32_negative : forall x, is_s32 x -> x < 0 -> 2 ^ 31 <= u32 x.
Proof.
  intros x Hx Hneg. unfold is_s32 in Hx. unfold u32.
  replace x with (x + 2 ^ 32 + (-1) * 2 ^ 32) by lia.
  rewrite Z.mod_add by lia. rewrite Z.mod_small by lia. lia.
Qed.

(** X13: the parameters are [int] but are compared with the unsigned
    [diff], so a negative one counts as a value of at least 2^31.  With
    [baseRTT >= 2], [diff] is below 2^31; hence in a delay-based cycle a
    negative [gamma] never ends slow start (the host's slow start runs
    instead), a negative [beta] never lowers the window, and negative
    [alpha] and [beta] together raise it by one in every avoidance
    cycle, before the final bounds. *)
Theorem negative_parameters : forall p sk ack acked,
  doing_qvegas_now (inet_csk_ca sk) <> 0 ->
  after ack (beg_snd_nxt (inet_csk_ca sk)) = true ->
  2 < cntRTT (inet_csk_ca sk) ->
  minRTT (inet_csk_ca sk) <> 0 -> 2 <= baseRTT (inet_csk_ca sk) ->
  let tp := tcp_sk sk in
  let q := inet_csk_ca sk in
  let sk0 := qvegas_restore sk in
  let diff := qvegas_diff sk0 in
  exists sk',
    tcp_qvegas_cong_avoid p sk ack acked = Some sk' /\
    (is_s32 (gamma p) -> gamma p < 0 ->
     tcp_in_slow_start (tcp_sk sk0) = true ->
     let tp1 := tcp_sk (qvegas_clamp
                  (with_tp (fun tp => tcp_slow_start tp acked) sk0)) in
     tcp_sk sk' = set_snd_ssthresh (tcp_current_ssthresh tp1) tp1) /\
    (is_s32 (beta p) -> beta p < 0 ->
     tcp_in_slow_start (tcp_sk sk0) = false ->
     snd_cwnd (tcp_sk sk') =
       clamp_window
         (if diff <? u32 (alpha p) then u32 (lost_cwnd q + 1) else lost_cwnd q)
         (snd_cwnd_clamp tp)) /\
    (is_s32 (beta p) -> beta p < 0 -> is_s32 (alpha p) -> alpha p < 0 ->
     tcp_in_slow_start (tcp_sk sk0) = false ->
     snd_cwnd (tcp_sk sk') =
       clamp_window (u32 (lost_cwnd q + 1)) (snd_cwnd_clamp tp)).
Proof.
  intros p sk ack acked Hon Hafter Hcnt Hm Hb2 tp q sk0 diff.
  assert (Hb : baseRTT (inet_csk_ca sk) <> 0) by lia.
  destruct (cong_avoid_delay_based p sk ack acked Hon Hafter Hcnt Hm Hb)
    as [_ Hc].
  fold sk0 in Hc. fold diff in Hc.
  assert (Hd : diff < 2 ^ 31).
  { subst diff sk0. apply qvegas_diff_below.
    rewrite qvegas_restore_ca. simpl. exact Hb2. }
  assert (Havoid : is_s32 (beta p) -> beta p < 0 ->
            tcp_in_slow_start (tcp_sk sk0) = false ->
            snd_cwnd (tcp_sk (qvegas_wipe
              (with_tp (set_snd_ssthresh (tcp_current_ssthresh (tcp_sk
                 (qvegas_clamp (qvegas_adjust p diff (qvegas_target sk0) sk0
                    acked)))))
                 (qvegas_clamp (qvegas_adjust p diff (qvegas_target sk0) sk0
                    acked))))) =
            clamp_window
              (if diff <? u32 (alpha p) then u32 (lost_cwnd q + 1)
               else lost_cwnd q) (snd_cwnd_clamp tp)).
  { intros Hs Hneg Hss.
    rewrite (qvegas_adjust_avoid p diff _ sk0 acked Hss).
    pose proof (u32_negative (beta p) Hs Hneg) as Hbig.
    assert (Hnb : (u32 (beta p) <? diff) = false) by (apply Z.ltb_ge; lia).
    rewrite Hnb.
    cbn [qvegas_wipe with_ca with_tp tcp_sk]. rewrite qvegas_clamp_tp.
    destruct (diff <? u32 (alpha p)); reflexivity. }
  eexists. split; [exact Hc |]. split; [| split].
  - intros Hs Hneg Hss tp1.
    pose proof (u32_negative (gamma p) Hs Hneg) as Hbig.
    assert (Hng : (u32 (gamma p) <? diff) = false) by (apply Z.ltb_ge; lia).
    subst tp1. unfold qvegas_adjust. rewrite Hng, Hss. reflexivity.
  - exact Havoid.
  - intros Hs Hneg Hsa Hnega Hss. rewrite (Havoid Hs Hneg Hss).
    pose proof (u32_negative (alpha p) Hsa Hnega) as Hbig.
    assert (Hlt : (diff <? u32 (alpha p)) = true) by (apply Z.ltb_lt; lia).
    rewrite Hlt. reflexivity.
Qed.

End FreshWindow.

(** ** Every field stays within its C type *)

Lemma is_u32_min : forall a b, is_u32 a -> is_u32 b -> is_u32 (Z.min a b).
Proof. unfold is_u32. intros a b Ha Hb. lia. Qed.

Lemma is_u32_max : forall a b, is_u32 a -> is_u32 b -> is_u32 (Z.max a b).
Proof. unfold is_u32. intros a b Ha Hb. lia. Qed.

Lemma is_u32_small : forall n, 0 <= n < 2 ^ 31 -> is_u32 n.
Proof. unfold is_u32. intros n Hn. lia. Qed.

Lemma is_u32_half : forall a, is_u32 a -> is_u32 (Z.shiftr a 1).
Proof.
  unfold is_u32. intros a Ha. rewrite Z.shiftr_div_pow2 by lia.
  change (2 ^ 1) with 2. split.
  - apply Z.div_pos; lia.
  - apply Z.div_lt_upper_bound; lia.
Qed.

Lemma wf_set_snd_cwnd : forall v tp,
  wf_tcp_sock tp -> is_u32 v -> wf_tcp_sock (set_snd_cwnd v tp).
Proof. unfold wf_tcp_sock. intros v tp Ht Hv. simpl. tauto. Qed.

Lemma wf_set_snd_ssthresh : forall v tp,
  wf_tcp_sock tp -> is_u32 v -> wf_tcp_sock (set_snd_ssthresh v tp).
Proof. unfold wf_tcp_sock. intros v tp Ht Hv. simpl. tauto. Qed.

Lemma wf_set_snd_cwnd_cnt : forall v tp,
  wf_tcp_sock tp -> is_u32 v -> wf_tcp_sock (set_snd_cwnd_cnt v tp).
Proof. unfold wf_tcp_sock. intros v tp Ht Hv. simpl. tauto. Qed.

Lemma wf_set_lost_cwnd : forall v q,
  wf_qvegas q -> is_u32 v -> wf_qvegas (set_lost_cwnd v q).
Proof. unfold wf_qvegas. intros v q Hq Hv. simpl. tauto. Qed.

Lemma wf_set_reno_inc : forall v q,
  wf_qvegas q -> is_u32 v -> wf_qvegas (set_reno_inc v q).
Proof. unfold wf_qvegas. intros v q Hq Hv. simpl. tauto. Qed.

Lemma wf_set_beg_snd_nxt : forall v q,
  wf_qvegas q -> is_u32 v -> wf_qvegas (set_beg_snd_nxt v q).
Proof. unfold wf_qvegas. intros v q Hq Hv. simpl. tauto. Qed.

Lemma wf_set_minRTT : forall v q,
  wf_qvegas q -> is_u32 v -> wf_qvegas (set_minRTT v q).
Proof. unfold wf_qvegas. intros v q Hq Hv. simpl. tauto. Qed.

Lemma wf_set_baseRTT : forall v q,
  wf_qvegas q -> is_u32 v -> wf_qvegas (set_baseRTT v q).
Proof. unfold wf_qvegas. intros v q Hq Hv. simpl. tauto. Qed.

Lemma wf_set_cntRTT : forall v q,
  wf_qvegas q -> is_u16 v -> wf_qvegas (set_cntRTT v q).
Proof. unfold wf_qvegas. intros v q Hq Hv. simpl. tauto. Qed.

Lemma wf_set_doing : forall v q,
  wf_qvegas q -> 0 <= v < 2 ^ 8 -> wf_qvegas (set_doing_qvegas_now v q).
Proof. unfold wf_qvegas. intros v q Hq Hv. simpl. tauto. Qed.

Lemma wf_snd_cwnd : forall tp, wf_tcp_sock tp -> is_u32 (snd_cwnd tp).
Proof. unfold wf_tcp_sock. tauto. Qed.

Lemma wf_snd_nxt : forall tp, wf_tcp_sock tp -> is_u32 (snd_nxt tp).
Proof. unfold wf_tcp_sock. tauto. Qed.

Lemma wf_snd_ssthresh : forall tp, wf_tcp_sock tp -> is_u32 (snd_ssthresh tp).
Proof. unfold wf_tcp_sock. tauto. Qed.

Lemma wf_snd_cwnd_clamp : forall tp,
  wf_tcp_sock tp -> is_u32 (snd_cwnd_clamp tp).
Proof. unfold wf_tcp_sock. tauto. Qed.

Lemma wf_lost_cwnd : forall q, wf_qvegas q -> is_u32 (lost_cwnd q).
Proof. unfold wf_qvegas. tauto. Qed.

Section RangeInvariant.

Context {H : Host}.

Lemma qvegas_enable_wf : forall sk, wf_sock sk -> wf_sock (qvegas_enable sk).
Proof.
  intros sk [Ht Hq]. split; [exact Ht |]. simpl.
  apply wf_set_minRTT; [| apply is_u32_small; lia].
  apply wf_set_reno_inc; [| apply is_u32_small; lia].
  apply wf_set_cntRTT; [| unfold is_u16; lia].
  apply wf_set_beg_snd_nxt; [| apply wf_snd_nxt; exact Ht].
  apply wf_set_doing; [exact Hq | lia].
Qed.

Lemma qvegas_disable_wf : forall sk, wf_sock sk -> wf_sock (qvegas_disable sk).
Proof.
  intros sk [Ht Hq]. split; [exact Ht |]. simpl.
  apply wf_set_doing; [exact Hq | lia].
Qed.

Lemma tcp_qvegas_init_wf : forall sk,
  is_u32 TCP_INIT_CWND -> wf_sock sk -> wf_sock (tcp_qvegas_init sk).
Proof.
  intros sk Hi [Ht Hq]. unfold tcp_qvegas_init. apply qvegas_enable_wf.
  destruct (baseRTT (inet_csk_ca sk) =? 0); split; try exact Ht; simpl.
  - apply wf_set_baseRTT; [| apply is_u32_small; lia].
    apply wf_set_lost_cwnd; assumption.
  - apply wf_set_baseRTT; [exact Hq | apply is_u32_small; lia].
Qed.

Lemma tcp_qvegas_pkts_acked_wf : forall sk s,
  wf_sock sk -> wf_sock (tcp_qvegas_pkts_acked sk s).
Proof.
  intros sk s [Ht Hq]. destruct (sample_taken s) eqn:Et.
  - rewrite (pkts_acked_taken sk s Et). split; [exact Ht |].
    pose proof (u32_range (rtt_us s + 1)) as Hv. fold (vrtt_of s) in Hv.
    destruct Hq as [H1 [H2 [H3 [H4 [H5 [H6 [H7 [H8 H9]]]]]]]].
    unfold wf_qvegas. simpl.
    exact (conj H1 (conj H2 (conj H3 (conj H4 (conj H5 (conj H6
             (conj (u16_range _)
                (conj (is_u32_min _ _ H8 Hv) (is_u32_min _ _ H9 Hv))))))))).
  - rewrite (pkts_acked_dropped sk s Et). split; assumption.
Qed.

Lemma tcp_qvegas_state_wf : forall sk ca_state,
  wf_sock sk -> wf_sock (tcp_qvegas_state sk ca_state).
Proof.
  intros sk ca_state Hwf. unfold tcp_qvegas_state.
  destruct (ca_state =? TCP_CA_Open).
  - destruct (qvegas_enable_wf sk Hwf) as [Ht Hq]. split; [| exact Hq].
    apply wf_set_snd_cwnd; [exact Ht |].
    apply is_u32_max; [apply wf_lost_cwnd; exact Hq | apply is_u32_small; lia].
  - apply qvegas_disable_wf. exact Hwf.
Qed.

Lemma tcp_qvegas_ssthresh_wf : forall sk,
  wf_sock sk ->
  wf_sock (fst (tcp_qvegas_ssthresh sk)) /\ is_u32 (snd (tcp_qvegas_ssthresh sk)).
Proof.
  intros sk [Ht Hq]. unfold tcp_qvegas_ssthresh. simpl. split.
  - destruct (lost_out (tcp_sk sk) =? 0); split; try assumption. simpl.
    apply wf_set_lost_cwnd; [exact Hq |].
    apply is_u32_max; [apply is_u32_half, u32_range | apply is_u32_small; lia].
  - apply is_u32_max; [| apply is_u32_small; lia].
    apply is_u32_min; [apply wf_snd_ssthresh; exact Ht | apply u32_range].
Qed.

Lemma assign_qvegas_ssthresh_wf : forall sk,
  wf_sock sk -> wf_sock (assign_qvegas_ssthresh sk).
Proof.
  intros sk Hwf. destruct (tcp_qvegas_ssthresh_wf sk Hwf) as [[Ht Hq] Hv].
  unfold assign_qvegas_ssthresh. split; [| exact Hq]. simpl.
  apply wf_set_snd_ssthresh; assumption.
Qed.

Lemma with_cwnd_wf : forall v sk,
  wf_sock sk -> is_u32 v -> wf_sock (with_tp (set_snd_cwnd v) sk).
Proof.
  intros v sk [Ht Hq] Hv. split; [| exact Hq]. simpl.
  apply wf_set_snd_cwnd; assumption.
Qed.

Lemma reno_step_wf : forall sk ack acked,
  host_keeps_wf H -> wf_sock sk -> wf_sock (reno_step sk ack acked).
Proof.
  intros sk ack acked [_ [Hreno _]] [Ht Hq]. unfold reno_step. split; simpl.
  - apply Hreno. exact Ht.
  - apply wf_set_reno_inc; [exact Hq | apply u32_range].
Qed.

Lemma qvegas_adjust_wf : forall p diff target sk acked,
  host_keeps_wf H -> wf_sock sk ->
  wf_sock (qvegas_adjust p diff target sk acked).
Proof.
  intros p diff target sk acked [_ [_ [Hss _]]] Hwf. unfold qvegas_adjust.
  pose proof Hwf as [Ht Hq].
  destruct ((u32 (gamma p) <? diff) && tcp_in_slow_start (tcp_sk sk)).
  - apply assign_qvegas_ssthresh_wf. apply with_cwnd_wf; [exact Hwf |].
    apply is_u32_min; [apply wf_snd_cwnd; exact Ht | apply u32_range].
  - destruct (tcp_in_slow_start (tcp_sk sk)).
    + split; [simpl; apply Hss; exact Ht | exact Hq].
    + destruct (u32 (beta p) <? diff).
      * apply assign_qvegas_ssthresh_wf.
        apply with_cwnd_wf; [exact Hwf | apply u32_range].
      * destruct (diff <? u32 (alpha p)); [| exact Hwf].
        apply with_cwnd_wf; [exact Hwf | apply u32_range].
Qed.

Lemma qvegas_clamp_wf : forall sk, wf_sock sk -> wf_sock (qvegas_clamp sk).
Proof.
  intros sk Hwf. pose proof Hwf as [Ht Hq]. unfold qvegas_clamp.
  destruct (snd_cwnd (tcp_sk sk) <? 4);
    [apply with_cwnd_wf; [exact Hwf | apply is_u32_small; lia] |].
  destruct (snd_cwnd_clamp (tcp_sk sk) <? snd_cwnd (tcp_sk sk));
    [| exact Hwf].
  apply with_cwnd_wf; [exact Hwf | apply wf_snd_cwnd_clamp; exact Ht].
Qed.

Lemma qvegas_wipe_wf : forall sk, wf_sock sk -> wf_sock (qvegas_wipe sk).
Proof.
  intros sk [Ht Hq]. split; [exact Ht |]. simpl.
  apply wf_set_lost_cwnd; [| apply wf_snd_cwnd; exact Ht].
  apply wf_set_minRTT; [| apply is_u32_small; lia].
  apply wf_set_cntRTT; [exact Hq | unfold is_u16; lia].
Qed.

Lemma qvegas_restore_wf : forall sk, wf_sock sk -> wf_sock (qvegas_restore sk).
Proof.
  intros sk [Ht Hq]. split; simpl.
  - apply wf_set_snd_cwnd; [exact Ht | apply wf_lost_cwnd; exact Hq].
  - apply wf_set_beg_snd_nxt; [exact Hq | apply wf_snd_nxt; exact Ht].
Qed.

Lemma qvegas_decision_wf : forall p sk acked skd,
  host_keeps_wf H -> wf_sock sk ->
  qvegas_decision p sk acked = Some skd -> wf_sock skd.
Proof.
  intros p sk acked skd Hk Hwf Hd.
  destruct (Z.eq_dec (minRTT (inet_csk_ca sk)) 0) as [Hm | Hm];
    [rewrite qvegas_decision_fault in Hd by (left; exact Hm); discriminate |].
  destruct (Z.eq_dec (baseRTT (inet_csk_ca sk)) 0) as [Hb | Hb];
    [rewrite qvegas_decision_fault in Hd by (right; exact Hb); discriminate |].
  rewrite (qvegas_decision_ok p sk acked Hm Hb) in Hd.
  cbv zeta in Hd. injection Hd as Hd. subst skd.
  pose proof (qvegas_clamp_wf _
                (qvegas_adjust_wf p (qvegas_diff sk) (qvegas_target sk) sk
                   acked Hk Hwf)) as [Ht Hq].
  split; [| exact Hq]. simpl.
  apply wf_set_snd_ssthresh; [exact Ht |].
  destruct Hk as [_ [_ [_ Hcur]]]. apply Hcur. exact Ht.
Qed.

Lemma cong_avoid_wf : forall p sk ack acked sk',
  host_keeps_wf H -> wf_sock sk ->
  tcp_qvegas_cong_avoid p sk ack acked = Some sk' -> wf_sock sk'.
Proof.
  intros p sk ack acked sk' Hk Hwf Hrun. unfold tcp_qvegas_cong_avoid in Hrun.
  destruct (doing_qvegas_now (inet_csk_ca sk) =? 0).
  - injection Hrun as Hrun. subst sk'. apply reno_step_wf; assumption.
  - destruct (after ack (beg_snd_nxt (inet_csk_ca sk))).
    + cbv zeta in Hrun.
      pose proof (qvegas_restore_wf sk Hwf) as Hwf0.
      destruct (cntRTT (inet_csk_ca (qvegas_restore sk)) <=? 2).
      * simpl in Hrun. injection Hrun as Hrun. subst sk'.
        apply qvegas_wipe_wf. apply reno_step_wf; assumption.
      * destruct (qvegas_decision p (qvegas_restore sk) acked) as [skd |] eqn:Hd;
          [| discriminate].
        simpl in Hrun. injection Hrun as Hrun. subst sk'.
        apply qvegas_wipe_wf.
        exact (qvegas_decision_wf p _ acked skd Hk Hwf0 Hd).
    + destruct (tcp_in_slow_start (tcp_sk sk));
        injection Hrun as Hrun; subst sk'; [| exact Hwf].
      destruct Hwf as [Ht Hq]. destruct Hk as [_ [_ [Hss _]]].
      split; [simpl; apply Hss; exact Ht | exact Hq].
Qed.

(** X14: no hook takes a field out of the range of its C type.  On a
    socket whose fields are all in range, and with a host whose helpers
    keep the transport fields in range, every hook of the file and the
    threshold helper leave every field in range, and the values returned
    by the helper and by the undo hook are unsigned 32-bit values. *)
Theorem hooks_keep_ranges : forall sk,
  host_keeps_wf H -> wf_sock sk ->
  wf_sock (qvegas_enable sk) /\
  wf_sock (qvegas_disable sk) /\
  wf_sock (tcp_qvegas_init sk) /\
  (forall s, wf_sock (tcp_qvegas_pkts_acked sk s)) /\
  (forall ca_state, wf_sock (tcp_qvegas_state sk ca_state)) /\
  (forall event, wf_sock (tcp_qvegas_cwnd_event sk event)) /\
  wf_sock (fst (tcp_qvegas_ssthresh sk)) /\
  is_u32 (snd (tcp_qvegas_ssthresh sk)) /\
  is_u32 (qvegas_undo_cwnd sk) /\
  (forall p ack acked sk',
     tcp_qvegas_cong_avoid p sk ack acked = Some sk' -> wf_sock sk').
Proof.
  intros sk Hk Hwf. pose proof Hk as [Hi _].
  split; [apply qvegas_enable_wf; exact Hwf |].
  split; [apply qvegas_disable_wf; exact Hwf |].
  split; [apply tcp_qvegas_init_wf; assumption |].
  split; [intro s; apply tcp_qvegas_pkts_acked_wf; exact Hwf |].
  split; [intro st; apply tcp_qvegas_state_wf; exact Hwf |].
  split.
  { intro event. unfold tcp_qvegas_cwnd_event.
    destruct (is_restart_event event);
      [apply tcp_qvegas_init_wf; assumption | exact Hwf]. }
  destruct (tcp_qvegas_ssthresh_wf sk Hwf) as [Hs Hv].
  split; [exact Hs |]. split; [exact Hv |]. split.
  { unfold qvegas_undo_cwnd. destruct Hwf as [_ Hq].
    apply is_u32_max; [apply wf_lost_cwnd; exact Hq | apply is_u32_small; lia]. }
  intros p ack acked sk' Hrun.
  exact (cong_avoid_wf p sk ack acked sk' Hk Hwf Hrun).
Qed.

End RangeInvariant.

(** ** The further properties on the reference host *)

Lemma linux_tcp_slow_start_wf : forall tp acked,
  wf_tcp_sock tp -> wf_tcp_sock (fst (Linux.tcp_slow_start tp acked)).
Proof.
  intros tp acked Ht. unfold Linux.tcp_slow_start. simpl.
  apply wf_set_snd_cwnd; [exact Ht |].
  apply is_u32_min; [| apply wf_snd_cwnd_clamp; exact Ht].
  apply is_u32_min; [apply u32_range | apply wf_snd_ssthresh; exact Ht].
Qed.

Lemma linux_tcp_cong_avoid_ai_wf : forall tp w acked,
  wf_tcp_sock tp -> wf_tcp_sock (Linux.tcp_cong_avoid_ai tp w acked).
Proof.
  intros tp w acked Ht. unfold Linux.tcp_cong_avoid_ai.
  set (tp1 := if w <=? snd_cwnd_cnt tp
              then set_snd_cwnd (u32 (snd_cwnd tp + 1)) (set_snd_cwnd_cnt 0 tp)
              else tp).
  assert (H1 : wf_tcp_sock tp1).
  { subst tp1. destruct (w <=? snd_cwnd_cnt tp); [| exact Ht].
    apply wf_set_snd_cwnd; [| apply u32_range].
    apply wf_set_snd_cwnd_cnt; [exact Ht | apply is_u32_small; lia]. }
  set (tp2 := set_snd_cwnd_cnt (u32 (snd_cwnd_cnt tp1 + acked)) tp1).
  assert (H2 : wf_tcp_sock tp2)
    by (subst tp2; apply wf_set_snd_cwnd_cnt; [exact H1 | apply u32_range]).
  cbv zeta.
  set (tp3 := if w <=? snd_cwnd_cnt tp2 then _ else tp2).
  assert (H3 : wf_tcp_sock tp3).
  { subst tp3. destruct (w <=? snd_cwnd_cnt tp2); [| exact H2].
    apply wf_set_snd_cwnd; [| apply u32_range].
    apply wf_set_snd_cwnd_cnt; [exact H2 | apply u32_range]. }
  apply wf_set_snd_cwnd; [exact H3 |].
  apply is_u32_min; [apply wf_snd_cwnd | apply wf_snd_cwnd_clamp]; exact H3.
Qed.

Lemma linux_keeps_wf : host_keeps_wf linux_host.
Proof.
  split; [unfold is_u32; simpl; unfold Linux.TCP_INIT_CWND; lia |].
  split; [| split].
  - intros tp ack acked Ht. simpl. unfold Linux.tcp_reno_cong_avoid.
    destruct (negb (Linux.tcp_is_cwnd_limited tp)); [exact Ht |].
    destruct (Linux.tcp_in_slow_start tp).
    + destruct (snd (Linux.tcp_slow_start tp acked) =? 0).
      * apply linux_tcp_slow_start_wf. exact Ht.
      * apply linux_tcp_cong_avoid_ai_wf. apply linux_tcp_slow_start_wf.
        exact Ht.
    + apply linux_tcp_cong_avoid_ai_wf. exact Ht.
  - intros tp acked Ht. simpl. apply linux_tcp_slow_start_wf. exact Ht.
  - intros tp Ht. simpl. unfold Linux.tcp_current_ssthresh.
    destruct (Linux.tcp_in_cwnd_reduction tp).
    + apply wf_snd_ssthresh. exact Ht.
    + apply is_u32_max; [apply wf_snd_ssthresh; exact Ht | apply u32_range].
Qed.

Lemma hooks_keep_ranges_witness :
  (host_keeps_wf linux_host /\ wf_sock sk_lossy) /\
  wf_sock (tcp_qvegas_init (H := linux_host) sk_lossy) /\
  is_u32 (snd (tcp_qvegas_ssthresh sk_lossy)).
Proof.
  assert (Hwf : wf_sock sk_lossy) by (repeat split; vm_compute; congruence).
  split; [exact (conj linux_keeps_wf Hwf) |].
  destruct (hooks_keep_ranges (H := linux_host) sk_lossy linux_keeps_wf Hwf)
    as [_ [_ [Hinit [_ [_ [_ [_ [Hret _]]]]]]]].
  exact (conj Hinit Hret).
Defined.

Lemma baseRTT_zero_sticks_witness :
  let sk := tcp_qvegas_state (H := linux_host)
              (mk_sock (tp_open 1000 10 64 1000)
                 (mk_qvegas 0 0 0 0 0 0 0 0 0)) Linux.TCP_CA_Open in
  let s := mk_ack_sample 1 9999 10 in
  baseRTT (inet_csk_ca sk) = 0 /\
  cntRTT (inet_csk_ca (pkts_acked_all sk (s :: s :: s :: nil))) = 3 /\
  tcp_qvegas_cong_avoid (H := linux_host) default_params
    (pkts_acked_all sk (s :: s :: s :: nil)) 1100 1 = None.
Proof.
  cbv zeta.
  assert (Hz : baseRTT (inet_csk_ca
                 (tcp_qvegas_state (H := linux_host)
                    (mk_sock (tp_open 1000 10 64 1000)
                       (mk_qvegas 0 0 0 0 0 0 0 0 0)) Linux.TCP_CA_Open)) = 0)
    by reflexivity.
  split; [exact Hz |]. split; [vm_compute; reflexivity |].
  destruct (baseRTT_zero_sticks (H := linux_host) default_params _
              (mk_ack_sample 1 9999 10 :: mk_ack_sample 1 9999 10
               :: mk_ack_sample 1 9999 10 :: nil) 1100 1 Hz) as [_ Hfault].
  apply Hfault.
  - vm_compute. discriminate.
  - vm_compute. reflexivity.
  - vm_compute. reflexivity.
Defined.

Lemma cong_avoid_frame_witness :
  let sk' := mk_sock (tp_open 1000 19 13 1000)
               (mk_qvegas 1000 0 0 19 0 1 0 0x7fffffff 10000) in
  tcp_qvegas_cong_avoid (H := linux_host) default_params sk_overloaded 600 1
    = Some sk' /\
  qvegas_undo_cwnd sk' = Z.max 19 2 /\
  baseRTT (inet_csk_ca sk') = baseRTT (inet_csk_ca sk_overloaded).
Proof.
  cbv zeta.
  assert (Hrun : tcp_qvegas_cong_avoid (H := linux_host) default_params
                   sk_overloaded 600 1 =
                 Some (mk_sock (tp_open 1000 19 13 1000)
                         (mk_qvegas 1000 0 0 19 0 1 0 0x7fffffff 10000)))
    by (vm_compute; reflexivity).
  split; [exact Hrun |].
  destruct (cong_avoid_frame (H := linux_host) default_params sk_overloaded
              600 1 _ Hrun) as [[_ [Hbase _]] [_ [_ Hdue]]].
  split; [| exact Hbase].
  destruct Hdue as [_ [_ [_ [_ Hundo]]]].
  - simpl. discriminate.
  - vm_compute. reflexivity.
  - exact Hundo.
Defined.

Lemma disabled_run_is_fallback_witness :
  let sk := mk_sock (mk_tcp_sock 1000 20 10 100 0 0 0 true Linux.TCP_CA_Open)
              (mk_qvegas 500 0 0 20 0 0 5 15000 10000) in
  (doing_qvegas_now (inet_csk_ca sk) = 0 /\
   is_u32 (reno_inc (inet_csk_ca sk))) /\
  cong_avoid_all (H := linux_host) default_params sk
    ((600, 20) :: (700, 21) :: nil) =
  Some (mk_sock (mk_tcp_sock 1000 22 10 100 0 0 0 true Linux.TCP_CA_Open)
          (mk_qvegas 500 0 0 20 2 0 5 15000 10000)).
Proof.
  cbv zeta.
  assert (Hoff : doing_qvegas_now (inet_csk_ca
                   (mk_sock (mk_tcp_sock 1000 20 10 100 0 0 0 true
                               Linux.TCP_CA_Open)
                      (mk_qvegas 500 0 0 20 0 0 5 15000 10000))) = 0)
    by reflexivity.
  assert (Hr : is_u32 (reno_inc (inet_csk_ca
                 (mk_sock (mk_tcp_sock 1000 20 10 100 0 0 0 true
                             Linux.TCP_CA_Open)
                    (mk_qvegas 500 0 0 20 0 0 5 15000 10000)))))
    by (unfold is_u32; simpl; lia).
  split; [exact (conj Hoff Hr) |].
  rewrite (disabled_run_is_fallback (H := linux_host)
             ((600, 20) :: (700, 21) :: nil) default_params _ Hoff Hr).
  vm_compute. reflexivity.
Defined.

Lemma restart_then_few_samples_witness :
  let s := mk_ack_sample 1 14999 10 in
  let sk2 := pkts_acked_all
               (tcp_qvegas_cwnd_event (H := linux_host) sk_overloaded
                  CA_EVENT_TX_START) (s :: s :: nil) in
  (is_restart_event CA_EVENT_TX_START = true /\
   Z.of_nat (length (taken_vrtts (s :: s :: nil))) <= 2 /\
   after (Host := linux_host) 1100 (snd_nxt (tcp_sk sk_overloaded)) = true) /\
  tcp_qvegas_cong_avoid (H := linux_host) default_params sk2 1100 1 =
    Some (qvegas_wipe (reno_step (H := linux_host) (qvegas_restore sk2)
                         1100 1)).
Proof.
  cbv zeta.
  assert (Hev : is_restart_event CA_EVENT_TX_START = true) by reflexivity.
  assert (Hn : Z.of_nat (length (taken_vrtts
                 (mk_ack_sample 1 14999 10 :: mk_ack_sample 1 14999 10
                  :: nil))) <= 2)
    by (vm_compute; discriminate).
  assert (Hafter : after (Host := linux_host) 1100
                     (snd_nxt (tcp_sk sk_overloaded)) = true)
    by (vm_compute; reflexivity).
  split; [exact (conj Hev (conj Hn Hafter)) |].
  destruct (restart_then_few_samples (H := linux_host) default_params
              sk_overloaded CA_EVENT_TX_START
              (mk_ack_sample 1 14999 10 :: mk_ack_sample 1 14999 10 :: nil)
              1100 1 Hev Hn Hafter) as [_ [Hrun _]].
  exact Hrun.
Defined.

Lemma cycle_then_samples_witness :
  let s := mk_ack_sample 1 14999 10 in
  let sk1 := mk_sock (tp_open 1000 19 13 1000)
               (mk_qvegas 1000 0 0 19 0 1 0 0x7fffffff 10000) in
  (cycle_due (H := linux_host) sk_overloaded 600 /\
   tcp_qvegas_cong_avoid (H := linux_host) default_params sk_overloaded 600 1
     = Some sk1 /\
   after (Host := linux_host) 1100 (snd_nxt (tcp_sk sk_overloaded)) = true) /\
  window_after
    (tcp_qvegas_cong_avoid (H := linux_host) default_params
       (pkts_acked_all sk1 (s :: s :: s :: nil)) 1100 1) = Some 18.
Proof.
  cbv zeta.
  assert (Hdue : cycle_due (H := linux_host) sk_overloaded 600)
    by apply cycle_due_500_600.
  assert (Hrun : tcp_qvegas_cong_avoid (H := linux_host) default_params
                   sk_overloaded 600 1 =
                 Some (mk_sock (tp_open 1000 19 13 1000)
                         (mk_qvegas 1000 0 0 19 0 1 0 0x7fffffff 10000)))
    by (vm_compute; reflexivity).
  assert (Hafter : after (Host := linux_host) 1100
                     (snd_nxt (tcp_sk sk_overloaded)) = true)
    by (vm_compute; reflexivity).
  split; [exact (conj Hdue (conj Hrun Hafter)) |].
  destruct (cycle_then_samples (H := linux_host) default_params sk_overloaded
              600 1 _
              (mk_ack_sample 1 14999 10 :: mk_ack_sample 1 14999 10
               :: mk_ack_sample 1 14999 10 :: nil) 1100 1
              (proj1 Hdue) (proj2 Hdue) Hrun Hafter) as [_ Hmany].
  rewrite Hmany; [vm_compute; reflexivity |].
  vm_compute. split; congruence.
Defined.

Lemma negative_parameters_witness :
  let p := mk_params (-1) (-1) (-1) in
  (cycle_due (H := linux_host) sk_overloaded 600 /\
   2 < cntRTT (inet_csk_ca sk_overloaded) /\
   minRTT (inet_csk_ca sk_overloaded) <> 0 /\
   2 <= baseRTT (inet_csk_ca sk_overloaded)) /\
  exists sk',
    tcp_qvegas_cong_avoid (H := linux_host) p sk_overloaded 600 1 = Some sk' /\
    snd_cwnd (tcp_sk sk') = 21.
Proof.
  cbv zeta.
  assert (Hdue : cycle_due (H := linux_host) sk_overloaded 600)
    by apply cycle_due_500_600.
  assert (Hcnt : 2 < cntRTT (inet_csk_ca sk_overloaded)) by (simpl; lia).
  assert (Hm : minRTT (inet_csk_ca sk_overloaded) <> 0)
    by (simpl; discriminate).
  assert (Hb : 2 <= baseRTT (inet_csk_ca sk_overloaded)) by (simpl; lia).
  split; [exact (conj Hdue (conj Hcnt (conj Hm Hb))) |].
  destruct (negative_parameters (H := linux_host) (mk_params (-1) (-1) (-1))
              sk_overloaded 600 1 (proj1 Hdue) (proj2 Hdue) Hcnt Hm Hb)
    as [sk' [Hrun [_ [_ Hboth]]]].
  exists sk'. split; [exact Hrun |].
  rewrite Hboth; try (vm_compute; reflexivity);
    unfold is_s32; simpl; lia.
Defined.
